(** * swagger-mcp: the transport and configuration resolver of [main.go]

    A shallow embedding of [getHttpAddr], [getSseUrlAddr] and the
    validation pipeline of [main], followed by the properties of the
    resolver.  Go strings are byte strings, modelled as [string]
    (lists of [ascii]).  [log.Fatal] ends the process, so every function
    that can reach it returns a [result]: the value, or the fatal site. *)

From Stdlib Require Import String Ascii List Bool Arith Lia.
Import ListNotations.
Local Open Scope string_scope.

(** ** The part of Go's [strings] package used by [main.go] *)

Module strings.

(** [strings.HasPrefix(s, prefix)] *)
Definition HasPrefix (s prefix : string) : bool := String.prefix prefix s.

(** [strings.Contains(s, substr)]: [substr] is a prefix of some suffix. *)
Fixpoint Contains (s substr : string) : bool :=
  String.prefix substr s ||
  match s with
  | EmptyString => false
  | String _ s' => Contains s' substr
  end.

(** [strings.TrimPrefix(s, prefix)] *)
Definition TrimPrefix (s prefix : string) : string :=
  if HasPrefix s prefix
  then substring (String.length prefix) (String.length s - String.length prefix) s
  else s.

(** Scanning loop of [strings.Split] for a non-empty separator: [skip]
    counts the bytes of a separator still to be jumped over, [cur] is the
    piece being collected. *)
Fixpoint split_from (sep : string) (skip : nat) (cur s : string)
  : list string :=
  match s with
  | EmptyString => [cur]
  | String c s' =>
      match skip with
      | S k => split_from sep k cur s'
      | O =>
          if String.prefix sep s
          then cur :: split_from sep (String.length sep - 1) "" s'
          else split_from sep 0 (cur ++ String c "") s'
      end
  end.

(** [strings.Split(s, sep)], [sep] non-empty (the source only splits on
    [":"]). *)
Definition Split (s sep : string) : list string := split_from sep 0 "" s.

End strings.

(** ** Fatal exits *)

(** One constructor per [log.Fatal]/[log.Fatalf] site of [main.go], named
    after the error taxonomy of the specification. *)
Inductive FatalError : Set :=
| MissingSpecSource             (* "Please provide the Swagger JSON URL ..." *)
| InvalidSpecUrl                (* "Invalid spec URL: %v" *)
| SpecFileNotFound              (* "Spec file does not exist: %v" *)
| UnrecognizedSpecSourceScheme  (* "Invalid specUrl format. ..." *)
| InvalidBaseUrl                (* "baseUrl must start with http:// or https://" *)
| ConflictingTransportModes     (* "Cannot run in both SSE and StreamableHTTP modes" *)
| InvalidAddressFormat          (* "sseAddr must be in :Port or IP:Port format" *)
| InvalidSseUrl                 (* "Invalid sseUrl: %v" *)
| UnsupportedScheme             (* "Unknown scheme for sseUrl: %s" *)
| MissingAddress                (* "Either sseAddr or sseUrl must be provided" *)
| LoadSwaggerFailed.            (* "Failed to load Swagger spec: %v" *)

Inductive result (A : Type) : Type :=
| Ok (a : A)
| Fatal (e : FatalError).

Arguments Ok {A} a.
Arguments Fatal {A} e.

Definition bind {A B : Type} (c : result A) (k : A -> result B) : result B :=
  match c with
  | Ok a => k a
  | Fatal e => Fatal e
  end.

Notation "x <- c ;; k" := (bind c (fun x => k))
  (at level 61, c at next level, right associativity).
Notation "' p <- c ;; k" := (bind c (fun x => let 'p := x in k))
  (at level 61, p pattern, c at next level, right associativity).

(** [if cond { log.Fatal(...) }] *)
Definition fatal_if (cond : bool) (e : FatalError) : result unit :=
  if cond then Fatal e else Ok tt.

(** ** The collaborators of [main.go] outside the repository file *)

(** The two fields of [url.URL] that [getSseUrlAddr] reads. *)
Record URL : Set := mkURL { Scheme : string; Host : string }.

(** Outcome of [os.Stat] as seen through [os.IsNotExist]. *)
Inductive StatResult : Set := StatOk | StatNotExist | StatOtherError.

Definition os_IsNotExist (r : StatResult) : bool :=
  match r with
  | StatNotExist => true
  | _ => false
  end.

(** Go's [net/url] and [os] packages and the repository's [swagger]
    package are taken as an interface; [None] and [false] stand for a
    non-nil [err]. *)
Class Externals : Type := {
  SwaggerSpec : Type;
  url_Parse : string -> option URL;
  url_ParseRequestURI : string -> bool;
  os_Stat : string -> StatResult;
  swagger_LoadSwagger : string -> option SwaggerSpec
}.

(** ** Data model: flags and [models.Config] *)

(** The values of the command-line flags after [flag.Parse()]. *)
Record Flags : Set := mkFlags {
  specUrl : string;
  sseMode : bool;
  sseAddr : string;
  sseUrl : string;
  httpMode : bool;
  httpAddr : string;
  httpPath : string;
  baseUrl : string;
  includePaths : string;
  excludePaths : string;
  includeMethods : string;
  excludeMethods : string;
  security : string;
  basicAuth : string;
  bearerAuth : string;
  apiKeyAuth : string;
  headers : string;
  sseHeaders : string;
  httpHeaders : string
}.

Record SseConfig : Set := mkSseConfig {
  SseMode : bool;
  SseAddr : string;
  SseUrl : string;
  SseHeaders : string
}.

Record HttpConfig : Set := mkHttpConfig {
  HttpMode : bool;
  HttpAddr : string;
  HttpPath : string;
  HttpHeaders : string
}.

Record ApiConfig : Set := mkApiConfig {
  BaseUrl : string;
  IncludePaths : string;
  ExcludePaths : string;
  IncludeMethods : string;
  ExcludeMethods : string;
  Security : string;
  BasicAuth : string;
  ApiKeyAuth : string;
  BearerAuth : string;
  Headers : string
}.

Record Config : Set := mkConfig {
  SpecUrl : string;
  SseCfg : SseConfig;
  HttpCfg : HttpConfig;
  ApiCfg : ApiConfig
}.

(** ** The address resolvers *)

(** [getHttpAddr] (main.go, lines 16-29). *)
Definition getHttpAddr (httpAddr : string) : result string :=
  if httpAddr =? "" then Ok "localhost:8080"
  else if strings.HasPrefix httpAddr ":" then Ok ("http://localhost" ++ httpAddr)
  else
    _ <- fatal_if (negb (strings.Contains httpAddr ":")) InvalidAddressFormat ;;
    Ok httpAddr.

(** Lines 51-57 of [getSseUrlAddr]: host and port read off [u.Host]. *)
Definition hostAndPort (uHost : string) : string * string :=
  if strings.Contains uHost ":"
  then
    let parts := strings.Split uHost ":" in
    (nth 0 parts "", nth 1 parts "")
  else (uHost, "").

(** Lines 59-68 of [getSseUrlAddr]: the port completed from the scheme. *)
Definition completePort (scheme port : string) : result string :=
  if port =? "" then
    if scheme =? "http" then Ok "80"
    else if scheme =? "https" then Ok "443"
    else Fatal UnsupportedScheme
  else Ok port.

Section Resolver.

Context {E : Externals}.

(** [getSseUrlAddr] (main.go, lines 31-74). *)
Definition getSseUrlAddr (sseUrl sseAddr : string) : result (string * string) :=
  if (sseAddr =? "") && (sseUrl =? "")
  then Ok ("http://localhost:8080", "localhost:8080")
  else if negb (sseAddr =? "") then
    if strings.HasPrefix sseAddr ":" then Ok ("http://localhost" ++ sseAddr, sseAddr)
    else
      _ <- fatal_if (negb (strings.Contains sseAddr ":")) InvalidAddressFormat ;;
      Ok ("http://" ++ sseAddr, sseAddr)
  else if negb (sseUrl =? "") then
    match url_Parse sseUrl with
    | None => Fatal InvalidSseUrl
    | Some u =>
        let '(host, port) := hostAndPort (Host u) in
        port <- completePort (Scheme u) port ;;
        Ok (sseUrl, host ++ ":" ++ port)
    end
  else Fatal MissingAddress.

(** ** The pipeline of [main] *)

(** Lines 101-118: the spec source checks. *)
Definition validateSpec (f : Flags) : result unit :=
  _ <- fatal_if (specUrl f =? "") MissingSpecSource ;;
  if strings.HasPrefix (specUrl f) "http://" || strings.HasPrefix (specUrl f) "https://"
  then fatal_if (negb (url_ParseRequestURI (specUrl f))) InvalidSpecUrl
  else if strings.HasPrefix (specUrl f) "file://" then
    let filePath := strings.TrimPrefix (specUrl f) "file://" in
    fatal_if (os_IsNotExist (os_Stat filePath)) SpecFileNotFound
  else Fatal UnrecognizedSpecSourceScheme.

(** Lines 120-125: the base URL check. *)
Definition validateBaseUrl (f : Flags) : result unit :=
  if negb (baseUrl f =? "") then
    fatal_if (negb (strings.HasPrefix (baseUrl f) "http://") &&
              negb (strings.HasPrefix (baseUrl f) "https://")) InvalidBaseUrl
  else Ok tt.

(** Lines 126-128: the two transport modes exclude each other. *)
Definition checkModes (sse http : bool) : result unit :=
  fatal_if (sse && http) ConflictingTransportModes.

(** Lines 130-132: [finalSseUrl, finalSseAddr], both [""] unless SSE mode
    is on. *)
Definition resolveSse (f : Flags) : result (string * string) :=
  if sseMode f then getSseUrlAddr (sseUrl f) (sseAddr f) else Ok ("", "").

(** Lines 133-138: [finalHttpPath, finalHttpAddr], both [""] unless
    streamable-HTTP mode is on. *)
Definition resolveHttp (f : Flags) : result (string * string) :=
  if httpMode f then
    let finalHttpPath := if httpPath f =? "" then "/mcp" else "" in
    finalHttpAddr <- getHttpAddr (httpAddr f) ;;
    Ok (finalHttpPath, finalHttpAddr)
  else Ok ("", "").

(** Lines 145-171: the [models.Config] literal. *)
Definition assemble (f : Flags)
  (finalSseUrl finalSseAddr finalHttpPath finalHttpAddr : string) : Config :=
  {| SpecUrl := specUrl f;
     SseCfg := {| SseMode := sseMode f;
                  SseAddr := finalSseAddr;
                  SseUrl := finalSseUrl;
                  SseHeaders := sseHeaders f |};
     HttpCfg := {| HttpMode := httpMode f;
                   HttpAddr := finalHttpAddr;
                   HttpPath := finalHttpPath;
                   HttpHeaders := httpHeaders f |};
     ApiCfg := {| BaseUrl := baseUrl f;
                  IncludePaths := includePaths f;
                  ExcludePaths := excludePaths f;
                  IncludeMethods := includeMethods f;
                  ExcludeMethods := excludeMethods f;
                  Security := security f;
                  BasicAuth := basicAuth f;
                  ApiKeyAuth := apiKeyAuth f;
                  BearerAuth := bearerAuth f;
                  Headers := headers f |} |}.

(** Lines 130-171: what [main] does once the mode check has passed. *)
Definition afterModes (f : Flags) : result (SwaggerSpec * Config) :=
  '(finalSseUrl, finalSseAddr) <- resolveSse f ;;
  '(finalHttpPath, finalHttpAddr) <- resolveHttp f ;;
  match swagger_LoadSwagger (specUrl f) with
  | None => Fatal LoadSwaggerFailed
  | Some swaggerSpec =>
      Ok (swaggerSpec,
          assemble f finalSseUrl finalSseAddr finalHttpPath finalHttpAddr)
  end.

(** [main] (lines 76-185) up to the call of [mcpserver.CreateServer]:
    the result is the pair handed to the server, or the fatal exit taken.
    The progress messages printed before the call are not modelled. *)
Definition main (f : Flags) : result (SwaggerSpec * Config) :=
  _ <- validateSpec f ;;
  _ <- validateBaseUrl f ;;
  _ <- checkModes (sseMode f) (httpMode f) ;;
  afterModes f.

End Resolver.

(** ** An executable environment

    A concrete [Externals] on which the pipeline can be run.  [GoUrl]
    follows the control flow of Go's [net/url] parser for URLs of the
    shape [scheme://host[:port][/path][?query][#fragment]]; the checks of
    percent escapes and of the characters of host and user info are left
    out.  The general theorems below do not depend on it: they hold for
    every [Externals]. *)

Module GoUrl.

Definition isLetter (c : ascii) : bool :=
  let n := nat_of_ascii c in
  ((65 <=? n)%nat && (n <=? 90)%nat) || ((97 <=? n)%nat && (n <=? 122)%nat).

Definition isDigit (c : ascii) : bool :=
  let n := nat_of_ascii c in (48 <=? n)%nat && (n <=? 57)%nat.

Definition toLower (c : ascii) : ascii :=
  let n := nat_of_ascii c in
  if (65 <=? n)%nat && (n <=? 90)%nat then ascii_of_nat (n + 32) else c.

Fixpoint ToLower (s : string) : string :=
  match s with
  | EmptyString => EmptyString
  | String c s' => String (toLower c) (ToLower s')
  end.

(** [stringContainsCTLByte] *)
Fixpoint stringContainsCTLByte (s : string) : bool :=
  match s with
  | EmptyString => false
  | String c s' =>
      let n := nat_of_ascii c in
      (n <? 32)%nat || (n =? 127)%nat || stringContainsCTLByte s'
  end.

(** [strings.Cut(s, sep)] for a one-byte separator, without the flag. *)
Fixpoint Cut (s : string) (sep : ascii) : string * string :=
  match s with
  | EmptyString => (EmptyString, EmptyString)
  | String c s' =>
      if Ascii.eqb c sep then (EmptyString, s')
      else let '(before, after) := Cut s' sep in (String c before, after)
  end.

(** The suffix of [s] after the last occurrence of [sep], if any. *)
Fixpoint afterLast (s : string) (sep : ascii) : option string :=
  match s with
  | EmptyString => None
  | String c s' =>
      match afterLast s' sep with
      | Some r => Some r
      | None => if Ascii.eqb c sep then Some s' else None
      end
  end.

Fixpoint allDigits (s : string) : bool :=
  match s with
  | EmptyString => true
  | String c s' => isDigit c && allDigits s'
  end.

(** The loop of [getScheme]: [None] is the error "missing protocol
    scheme", otherwise the scheme and the rest. *)
Fixpoint getScheme_from (first : bool) (seen rest rawURL : string)
  : option (string * string) :=
  match rest with
  | EmptyString => Some (EmptyString, rawURL)
  | String c r =>
      if isLetter c then getScheme_from false (seen ++ String c "") r rawURL
      else if isDigit c || Ascii.eqb c "+" || Ascii.eqb c "-" || Ascii.eqb c "."
      then if first then Some (EmptyString, rawURL)
           else getScheme_from false (seen ++ String c "") r rawURL
      else if Ascii.eqb c ":"
      then if first then None else Some (seen, r)
      else Some (EmptyString, rawURL)
  end.

Definition getScheme (rawURL : string) : option (string * string) :=
  getScheme_from true "" rawURL rawURL.

(** [parseHost] without brackets: a port after the last colon is made of
    digits. *)
Definition validHost (host : string) : bool :=
  if strings.HasPrefix host "[" then
    match afterLast host "]" with
    | None => false
    | Some p => (p =? "") || (strings.HasPrefix p ":" && allDigits (substring 1 (String.length p) p))
    end
  else
    match afterLast host ":" with
    | None => true
    | Some p => allDigits p
    end.

(** [parse(rawURL, viaRequest)] after the fragment has been cut off. *)
Definition parse (rawURL : string) (viaRequest : bool) : option URL :=
  if stringContainsCTLByte rawURL then None
  else if (rawURL =? "") && viaRequest then None
  else if rawURL =? "*" then Some (mkURL "" "")
  else
    match getScheme rawURL with
    | None => None
    | Some (scheme, rest) =>
        let scheme := ToLower scheme in
        let rest := fst (Cut rest "?") in
        let authority_step :=
          if (negb (scheme =? "") || (negb viaRequest && negb (strings.HasPrefix rest "///")))
             && strings.HasPrefix rest "//"
          then
            let authority := fst (Cut (substring 2 (String.length rest) rest) "/") in
            let host :=
              match afterLast authority "@" with
              | Some h => h
              | None => authority
              end in
            if validHost host then Some (mkURL scheme host) else None
          else Some (mkURL scheme "") in
        if negb (strings.HasPrefix rest "/") then
          if negb (scheme =? "") then Some (mkURL scheme "")
          else if viaRequest then None
          else if strings.Contains (fst (Cut rest "/")) ":" then None
          else authority_step
        else authority_step
    end.

(** [url.Parse] *)
Definition Parse (rawURL : string) : option URL :=
  parse (fst (Cut rawURL "#")) false.

(** [url.ParseRequestURI]: [true] when the error is nil. *)
Definition ParseRequestURI (rawURL : string) : bool :=
  match parse rawURL true with
  | Some _ => true
  | None => false
  end.

End GoUrl.

(** A file system holding the single file [/tmp/spec.json], and a loader
    that returns the source string as the loaded document. *)
#[local] Instance sampleExternals : Externals := {|
  SwaggerSpec := string;
  url_Parse := GoUrl.Parse;
  url_ParseRequestURI := GoUrl.ParseRequestURI;
  os_Stat := fun name => if name =? "/tmp/spec.json" then StatOk else StatNotExist;
  swagger_LoadSwagger := fun source => Some source
|}.

(** Flags with every string empty and both modes off. *)
Definition noFlags : Flags :=
  mkFlags "" false "" "" false "" "" "" "" "" "" "" "" "" "" "" "" "" "".

Definition withSpec (f : Flags) (s : string) : Flags :=
  mkFlags s (sseMode f) (sseAddr f) (sseUrl f) (httpMode f) (httpAddr f)
    (httpPath f) (baseUrl f) (includePaths f) (excludePaths f)
    (includeMethods f) (excludeMethods f) (security f) (basicAuth f)
    (bearerAuth f) (apiKeyAuth f) (headers f) (sseHeaders f) (httpHeaders f).

Definition withSse (f : Flags) (addr url : string) : Flags :=
  mkFlags (specUrl f) true addr url (httpMode f) (httpAddr f)
    (httpPath f) (baseUrl f) (includePaths f) (excludePaths f)
    (includeMethods f) (excludeMethods f) (security f) (basicAuth f)
    (bearerAuth f) (apiKeyAuth f) (headers f) (sseHeaders f) (httpHeaders f).

Definition withHttp (f : Flags) (addr path : string) : Flags :=
  mkFlags (specUrl f) (sseMode f) (sseAddr f) (sseUrl f) true addr
    path (baseUrl f) (includePaths f) (excludePaths f)
    (includeMethods f) (excludeMethods f) (security f) (basicAuth f)
    (bearerAuth f) (apiKeyAuth f) (headers f) (sseHeaders f) (httpHeaders f).

Definition withBaseUrl (f : Flags) (b : string) : Flags :=
  mkFlags (specUrl f) (sseMode f) (sseAddr f) (sseUrl f) (httpMode f) (httpAddr f)
    (httpPath f) b (includePaths f) (excludePaths f)
    (includeMethods f) (excludeMethods f) (security f) (basicAuth f)
    (bearerAuth f) (apiKeyAuth f) (headers f) (sseHeaders f) (httpHeaders f).

(** [--specUrl=https://api.example.com/swagger.json --http --httpAddr=:9000] *)
Definition flagsHttp9000 : Flags :=
  withHttp (withSpec noFlags "https://api.example.com/swagger.json") ":9000" "".

(** [--specUrl=file:///tmp/spec.json --sse --sseUrl=https://example.com] *)
Definition flagsSseUrl : Flags :=
  withSse (withSpec noFlags "file:///tmp/spec.json") "" "https://example.com".

(** [--specUrl=file:///tmp/spec.json --sse --sseAddr=:9000] *)
Definition flagsSse9000 : Flags :=
  withSse (withSpec noFlags "file:///tmp/spec.json") ":9000" "".

(** [--specUrl=https://api.example.com/swagger.json --http
    --httpAddr=:9000 --httpPath=/api] *)
Definition flagsHttpPath : Flags :=
  withHttp (withSpec noFlags "https://api.example.com/swagger.json") ":9000" "/api".

(** [--specUrl= --baseUrl=ftp://x --sse --http]: every later check would
    fail too. *)
Definition flagsNoSpec : Flags :=
  mkFlags "" true "" "" true "" "" "ftp://x" "" "" "" "" "" "" "" "" "" "" "".

(** [--specUrl=file:///tmp/spec.json --sse --http] *)
Definition flagsBothModes : Flags :=
  withHttp (withSse (withSpec noFlags "file:///tmp/spec.json") "" "") "" "".

(** [--specUrl=file:///tmp/spec.json --baseUrl=ftp://x] *)
Definition flagsBadBase : Flags :=
  withBaseUrl (withSpec noFlags "file:///tmp/spec.json") "ftp://x".

(** [--specUrl=file:///tmp/spec.json --baseUrl=https://api.example.com] *)
Definition flagsGoodBase : Flags :=
  withBaseUrl (withSpec noFlags "file:///tmp/spec.json") "https://api.example.com".

(** [--specUrl=file:///tmp/spec.json --sseAddr=nocolon --sseUrl=ws://x
    --httpAddr=nocolon --httpPath=/p]: address flags without a mode flag. *)
Definition flagsStdioAddrs : Flags :=
  mkFlags "file:///tmp/spec.json" false "nocolon" "ws://x" false "nocolon" "/p"
    "" "" "" "" "" "" "" "" "" "" "" "".

(** [--specUrl=file:///tmp/spec.json --http --httpAddr=nocolon] *)
Definition flagsHttpNoColon : Flags :=
  withHttp (withSpec noFlags "file:///tmp/spec.json") "nocolon" "".

(** A run with every pass-through flag set. *)
Definition flagsAllSet : Flags :=
  mkFlags "file:///tmp/spec.json" false "" "" true "127.0.0.1:7000" ""
    "https://api.example.com" "/pets.*" "/admin.*" "GET,POST" "DELETE"
    "bearer" "user:pw" "token" "header:X-Key=1" "A=1,B=2" "X-Trace" "X-Req".

(** ** The consistency the specification asks of the SSE pair

    The specification's reading of "same host:port": the dialable URL
    parses, and its host, with the port it carries or else the port its
    scheme stands for, is the listen address. *)
Definition sameHostPort {E : Externals} (dialableURL listenAddress : string) : Prop :=
  exists u,
    url_Parse dialableURL = Some u /\
    (Host u = listenAddress \/
     (strings.Contains (Host u) ":" = false /\
      exists port, completePort (Scheme u) "" = Ok port /\
                   listenAddress = Host u ++ ":" ++ port)).

(** * Properties *)

(** ** Strings *)

Lemma append_assoc (a b c : string) : (a ++ b) ++ c = a ++ b ++ c.
Proof.
  induction a as [|x a IH]; simpl; [reflexivity | now rewrite IH].
Qed.

Lemma append_nil_r (a : string) : a ++ "" = a.
Proof.
  induction a as [|x a IH]; simpl; [reflexivity | now rewrite IH].
Qed.

Lemma prefix_nil (s : string) : String.prefix "" s = true.
Proof. destruct s; reflexivity. Qed.

Lemma prefix_cons (a c : ascii) (p s : string) :
  String.prefix (String a p) (String c s)
  = if ascii_dec a c then String.prefix p s else false.
Proof. reflexivity. Qed.

Lemma prefix_append (p s : string) : String.prefix p (p ++ s) = true.
Proof.
  induction p as [|x p IH]; [apply prefix_nil |].
  change (String x p ++ s) with (String x (p ++ s)). rewrite prefix_cons.
  destruct (ascii_dec x x) as [_|n]; [exact IH | now elim n].
Qed.

Lemma HasPrefix_append (p s : string) : strings.HasPrefix (p ++ s) p = true.
Proof. apply prefix_append. Qed.

Lemma HasPrefix_Contains (s p : string) :
  strings.HasPrefix s p = true -> strings.Contains s p = true.
Proof.
  unfold strings.HasPrefix. intros Hp.
  destruct s; cbn [strings.Contains]; rewrite Hp; reflexivity.
Qed.

Lemma Contains_append (a b c : string) : strings.Contains (a ++ b ++ c) b = true.
Proof.
  induction a as [|x a IH].
  - change ("" ++ b ++ c) with (b ++ c).
    apply HasPrefix_Contains, HasPrefix_append.
  - change (String x a ++ b ++ c) with (String x (a ++ b ++ c)).
    cbn [strings.Contains]. rewrite IH. apply orb_true_r.
Qed.

Lemma Contains_nonempty (s p : string) :
  strings.Contains s p = true -> p <> "" -> s <> "".
Proof.
  intros Hc Hp ->. destruct p; [now elim Hp | discriminate].
Qed.

Lemma Contains_cons_false (c : ascii) (s p : string) :
  strings.Contains (String c s) p = false ->
  String.prefix p (String c s) = false /\ strings.Contains s p = false.
Proof. cbn [strings.Contains]. apply orb_false_elim. Qed.

(** A non-empty piece without the separator does not start with it. *)
Lemma HasPrefix_colon_free (host rest : string) :
  host <> "" -> strings.Contains host ":" = false ->
  strings.HasPrefix (host ++ rest) ":" = false.
Proof.
  destruct host as [|c host]; [now intros [] |].
  intros _ Hc. apply Contains_cons_false in Hc. destruct Hc as [Hp _].
  unfold strings.HasPrefix.
  change (String c host ++ rest) with (String c (host ++ rest)).
  rewrite prefix_cons in *.
  destruct (ascii_dec ":" c); [| reflexivity].
  rewrite prefix_nil in Hp. discriminate.
Qed.

(** [Split] on a string without the separator yields that one string. *)
Lemma split_from_colon_free (cur s : string) :
  strings.Contains s ":" = false ->
  strings.split_from ":" 0 cur s = [cur ++ s].
Proof.
  revert cur. induction s as [|c s IH]; intros cur Hc.
  - cbn [strings.split_from]. now rewrite append_nil_r.
  - apply Contains_cons_false in Hc. destruct Hc as [Hp Hc].
    cbn [strings.split_from]. rewrite Hp, (IH _ Hc), append_assoc.
    reflexivity.
Qed.

(** [Split] cuts at the first separator. *)
Lemma split_from_first_colon (cur host rest : string) :
  strings.Contains host ":" = false ->
  strings.split_from ":" 0 cur (host ++ ":" ++ rest)
  = (cur ++ host) :: strings.split_from ":" 0 "" rest.
Proof.
  revert cur. induction host as [|c host IH]; intros cur Hc.
  - change ("" ++ ":" ++ rest) with (String ":" rest).
    cbn [strings.split_from]. rewrite prefix_cons, prefix_nil, append_nil_r.
    destruct (ascii_dec ":" ":") as [_|n]; [reflexivity | now elim n].
  - apply Contains_cons_false in Hc. destruct Hc as [Hp Hc].
    change (String c host ++ ":" ++ rest) with (String c (host ++ ":" ++ rest)).
    cbn [strings.split_from].
    rewrite prefix_cons in *.
    destruct (ascii_dec ":" c).
    + rewrite prefix_nil in Hp. discriminate.
    + rewrite (IH _ Hc), append_assoc. reflexivity.
Qed.

Lemma split_from_length (sep cur s : string) (skip : nat) :
  1 <= List.length (strings.split_from sep skip cur s).
Proof.
  revert skip cur. induction s as [|c s IH]; intros skip cur;
    cbn [strings.split_from].
  - simpl. lia.
  - destruct skip; [| apply IH].
    destruct (String.prefix sep (String c s)); [simpl; lia | apply IH].
Qed.

(** The guard of line 53 keeps [parts[0]] and [parts[1]] in range. *)
Lemma Split_colon_length (s : string) :
  strings.Contains s ":" = true -> 2 <= List.length (strings.Split s ":").
Proof.
  unfold strings.Split. intros Hc.
  enough (forall cur, 2 <= List.length (strings.split_from ":" 0 cur s)) as Hn
    by apply Hn.
  induction s as [|c s IH]; intros cur; [discriminate |].
  cbn [strings.split_from].
  destruct (String.prefix ":" (String c s)) eqn:Hp.
  - pose proof (split_from_length ":" "" s (String.length ":" - 1)) as Hl.
    change (2 <= S (List.length
                      (strings.split_from ":" (String.length ":" - 1) "" s))).
    lia.
  - cbn [strings.Contains] in Hc. rewrite Hp in Hc. apply IH, Hc.
Qed.

(** ** The host and port read off a parsed URL *)

Lemma hostAndPort_no_colon (h : string) :
  strings.Contains h ":" = false -> hostAndPort h = (h, "").
Proof. unfold hostAndPort. now intros ->. Qed.

Lemma hostAndPort_one_colon (h p : string) :
  strings.Contains h ":" = false -> strings.Contains p ":" = false ->
  hostAndPort (h ++ ":" ++ p) = (h, p).
Proof.
  intros Hh Hp. unfold hostAndPort, strings.Split.
  rewrite (Contains_append h ":" p).
  rewrite (split_from_first_colon "" h p Hh), (split_from_colon_free "" p Hp).
  reflexivity.
Qed.

(** ** The error monad *)

Lemma bind_Ok_inv {A B : Type} (c : result A) (k : A -> result B) (b : B) :
  bind c k = Ok b -> exists a, c = Ok a /\ k a = Ok b.
Proof. destruct c as [a|e]; simpl; [eauto | discriminate]. Qed.

Lemma fatal_if_Ok (cond : bool) (e : FatalError) (u : unit) :
  fatal_if cond e = Ok u -> cond = false.
Proof. destruct cond; [discriminate | reflexivity]. Qed.

Lemma result_unit_Ok (c : result unit) (u : unit) : c = Ok u -> c = Ok tt.
Proof. now destruct u. Qed.

Section ResolverProperties.

Context {E : Externals}.

(** ** The dual-input resolver *)

(** Every branch of the listen-address case, by the shape of the
    address. *)
Lemma getSseUrlAddr_addr (sseUrl sseAddr : string) :
  sseAddr <> "" ->
  getSseUrlAddr sseUrl sseAddr =
    if strings.HasPrefix sseAddr ":" then Ok ("http://localhost" ++ sseAddr, sseAddr)
    else if strings.Contains sseAddr ":" then Ok ("http://" ++ sseAddr, sseAddr)
    else Fatal InvalidAddressFormat.
Proof.
  intros Hne. apply String.eqb_neq in Hne.
  unfold getSseUrlAddr. rewrite Hne. cbn [andb negb].
  destruct (strings.HasPrefix sseAddr ":"); [reflexivity |].
  destruct (strings.Contains sseAddr ":"); reflexivity.
Qed.

(** The URL-only case once the URL has parsed. *)
Lemma getSseUrlAddr_url (sseUrl : string) (u : URL) :
  sseUrl <> "" -> url_Parse sseUrl = Some u ->
  getSseUrlAddr sseUrl "" =
    port <- completePort (Scheme u) (snd (hostAndPort (Host u))) ;;
    Ok (sseUrl, fst (hostAndPort (Host u)) ++ ":" ++ port).
Proof.
  intros Hne Hu. apply String.eqb_neq in Hne.
  unfold getSseUrlAddr. rewrite Hne, Hu. cbn [String.eqb andb negb].
  destruct (hostAndPort (Host u)); reflexivity.
Qed.

(** C6. With both the listen address and the dialable URL empty, the
    dual-input resolver returns exactly the pair
    ("http://localhost:8080", "localhost:8080"). *)
Theorem getSseUrlAddr_defaults :
  getSseUrlAddr "" "" = Ok ("http://localhost:8080", "localhost:8080").
Proof. reflexivity. Qed.

(** C5. For a non-empty listen address, whatever the dialable URL input:
    the form :PORT gives the dialable URL "http://localhost:PORT" and the
    listen address as given; the form HOST:PORT gives the input prefixed
    with "http://" (and the listen address as given); an address without
    any colon is the fatal exit InvalidAddressFormat. *)
Theorem getSseUrlAddr_listen_address (sseUrl sseAddr : string) :
  sseAddr <> "" ->
  (forall port, sseAddr = ":" ++ port ->
     getSseUrlAddr sseUrl sseAddr = Ok ("http://localhost:" ++ port, sseAddr)) /\
  (forall host port,
     sseAddr = host ++ ":" ++ port ->
     host <> "" -> strings.Contains host ":" = false ->
     getSseUrlAddr sseUrl sseAddr = Ok ("http://" ++ sseAddr, sseAddr)) /\
  (strings.Contains sseAddr ":" = false ->
     getSseUrlAddr sseUrl sseAddr = Fatal InvalidAddressFormat).
Proof.
  intros Hne. rewrite (getSseUrlAddr_addr sseUrl sseAddr Hne).
  repeat split.
  - intros port ->. rewrite (HasPrefix_append ":" port). reflexivity.
  - intros host port -> Hh Hc.
    rewrite (HasPrefix_colon_free host (":" ++ port) Hh Hc).
    rewrite (Contains_append host ":" port). reflexivity.
  - intros Hc. rewrite Hc.
    destruct (strings.HasPrefix sseAddr ":") eqn:Hp; [| reflexivity].
    apply HasPrefix_Contains in Hp. congruence.
Qed.

(** X6. With only the dialable URL given (and parsed) and a host without a
    colon: the listen address is host:80 for scheme http and host:443 for
    scheme https, and every other scheme is the fatal exit
    UnsupportedScheme; every success returns the URL as given as the
    dialable value. *)
Lemma getSseUrlAddr_url_plain_host (sseUrl : string) (u : URL) :
  sseUrl <> "" -> url_Parse sseUrl = Some u ->
  (strings.Contains (Host u) ":" = false ->
     (Scheme u = "http" ->
        getSseUrlAddr sseUrl "" = Ok (sseUrl, Host u ++ ":80")) /\
     (Scheme u = "https" ->
        getSseUrlAddr sseUrl "" = Ok (sseUrl, Host u ++ ":443")) /\
     (Scheme u <> "http" -> Scheme u <> "https" ->
        getSseUrlAddr sseUrl "" = Fatal UnsupportedScheme)) /\
  (forall dialable listen,
     getSseUrlAddr sseUrl "" = Ok (dialable, listen) -> dialable = sseUrl).
Proof.
  intros Hne Hu.
  rewrite (getSseUrlAddr_url sseUrl u Hne Hu).
  split.
  - intros Hfree. rewrite (hostAndPort_no_colon _ Hfree). cbn [fst snd].
    repeat split.
    + intros ->. reflexivity.
    + intros ->. reflexivity.
    + intros H1 H2. apply String.eqb_neq in H1, H2.
      unfold completePort. cbn [String.eqb]. now rewrite H1, H2.
  - intros dialable listen Hok.
    destruct (completePort (Scheme u) (snd (hostAndPort (Host u))));
      [| discriminate].
    cbn [bind] in Hok. congruence.
Qed.

(** X7. When the parsed host holds exactly one colon between a host and a
    non-empty port, the listen address is that host itself. *)
Lemma getSseUrlAddr_url_with_port (sseUrl : string) (u : URL) (h p : string) :
  sseUrl <> "" -> url_Parse sseUrl = Some u ->
  Host u = h ++ ":" ++ p ->
  strings.Contains h ":" = false -> strings.Contains p ":" = false -> p <> "" ->
  getSseUrlAddr sseUrl "" = Ok (sseUrl, Host u).
Proof.
  intros Hne Hu Hh Hch Hcp Hp.
  rewrite (getSseUrlAddr_url sseUrl u Hne Hu), Hh.
  rewrite (hostAndPort_one_colon h p Hch Hcp). cbn [fst snd].
  apply String.eqb_neq in Hp. unfold completePort. now rewrite Hp.
Qed.

(** A successful resolution yields a non-empty URL and a listen address
    that holds a colon. *)
Lemma getSseUrlAddr_Ok_shape (sseUrl sseAddr dialable listen : string) :
  getSseUrlAddr sseUrl sseAddr = Ok (dialable, listen) ->
  dialable <> "" /\ strings.Contains listen ":" = true.
Proof.
  destruct (String.eqb_spec sseAddr "") as [-> | Ha].
  - destruct (String.eqb_spec sseUrl "") as [-> | Hu].
    + cbn. intros [= <- <-]. split; [discriminate | reflexivity].
    + unfold getSseUrlAddr. apply String.eqb_neq in Hu as Hu'.
      rewrite Hu'. cbn [String.eqb andb negb].
      destruct (url_Parse sseUrl) as [u|]; [| discriminate].
      destruct (hostAndPort (Host u)) as [host port].
      destruct (completePort (Scheme u) port) as [p|]; [| discriminate].
      cbn [bind]. intros [= <- <-]. split; [exact Hu |].
      exact (Contains_append host ":" p).
  - rewrite (getSseUrlAddr_addr sseUrl sseAddr Ha).
    destruct (strings.HasPrefix sseAddr ":") eqn:Hp.
    + intros [= <- <-]. split; [discriminate |].
      now apply HasPrefix_Contains.
    + destruct (strings.Contains sseAddr ":") eqn:Hc; [| discriminate].
      intros [= <- <-]. split; [discriminate | exact Hc].
Qed.

(** C4.  The dialable URL "http://[::1]:8080", given alone, resolves to
    the listen address "[:80": the host of the URL is cut at its first two
    colons, so the listen address is neither the URL's host:port
    "[::1]:8080" nor carries its port. *)
Theorem getSseUrlAddr_bracketed_host :
  url_Parse "http://[::1]:8080" = Some (mkURL "http" "[::1]:8080") ->
  getSseUrlAddr "http://[::1]:8080" "" = Ok ("http://[::1]:8080", "[:80") /\
  hostAndPort "[::1]:8080" = ("[", "").
Proof.
  intros Hu. split; [| reflexivity].
  assert (Hne : "http://[::1]:8080" <> "") by discriminate.
  rewrite (getSseUrlAddr_url _ _ Hne Hu). reflexivity.
Qed.

End ResolverProperties.

Section PipelineProperties.

Context {E : Externals}.

(** ** The stages of [main] *)

Ltac break_branch :=
  match goal with
  | |- context [if ?b then _ else _] => destruct b eqn:?
  | |- context [match ?x with Some _ => _ | None => _ end] => destruct x eqn:?
  | |- context [let (_, _) := ?x in _] => destruct x eqn:?
  end.

Ltac by_branches :=
  unfold fatal_if, bind; repeat (break_branch; cbn beta iota); try discriminate.

(** A successful run went through every stage. *)
Lemma main_Ok_inv (f : Flags) (spec : SwaggerSpec) (cfg : Config) :
  main f = Ok (spec, cfg) ->
  validateSpec f = Ok tt /\
  validateBaseUrl f = Ok tt /\
  checkModes (sseMode f) (httpMode f) = Ok tt /\
  exists finalSseUrl finalSseAddr finalHttpPath finalHttpAddr,
    resolveSse f = Ok (finalSseUrl, finalSseAddr) /\
    resolveHttp f = Ok (finalHttpPath, finalHttpAddr) /\
    swagger_LoadSwagger (specUrl f) = Some spec /\
    cfg = assemble f finalSseUrl finalSseAddr finalHttpPath finalHttpAddr.
Proof.
  unfold main. intros H.
  apply bind_Ok_inv in H. destruct H as [u1 [H1 H]].
  apply bind_Ok_inv in H. destruct H as [u2 [H2 H]].
  apply bind_Ok_inv in H. destruct H as [u3 [H3 H]].
  apply result_unit_Ok in H1, H2, H3. repeat (split; [assumption |]).
  unfold afterModes in H.
  apply bind_Ok_inv in H. destruct H as [[su sa] [Hs H]].
  apply bind_Ok_inv in H. destruct H as [[hp ha] [Hh H]].
  destruct (swagger_LoadSwagger (specUrl f)) as [d|]; [| discriminate].
  injection H as <- <-. exists su, sa, hp, ha. auto.
Qed.

(** Conversely, a run whose stages all succeed hands over the assembled
    configuration. *)
Lemma main_Ok_intro (f : Flags) (spec : SwaggerSpec) (su sa hp ha : string) :
  validateSpec f = Ok tt -> validateBaseUrl f = Ok tt ->
  checkModes (sseMode f) (httpMode f) = Ok tt ->
  resolveSse f = Ok (su, sa) -> resolveHttp f = Ok (hp, ha) ->
  swagger_LoadSwagger (specUrl f) = Some spec ->
  main f = Ok (spec, assemble f su sa hp ha).
Proof.
  intros H1 H2 H3 Hs Hh Hl. unfold main, afterModes.
  rewrite H1, H2, H3, Hs, Hh. cbn [bind]. now rewrite Hl.
Qed.

Lemma validateSpec_no_conflict (f : Flags) :
  validateSpec f <> Fatal ConflictingTransportModes.
Proof. unfold validateSpec. by_branches. Qed.

Lemma validateBaseUrl_no_conflict (f : Flags) :
  validateBaseUrl f <> Fatal ConflictingTransportModes.
Proof. unfold validateBaseUrl. by_branches. Qed.

Lemma completePort_no_conflict (scheme port : string) :
  completePort scheme port <> Fatal ConflictingTransportModes.
Proof. unfold completePort. by_branches. Qed.

Lemma getSseUrlAddr_no_conflict (url addr : string) :
  getSseUrlAddr url addr <> Fatal ConflictingTransportModes.
Proof.
  unfold getSseUrlAddr.
  destruct ((addr =? "") && (url =? "")); [discriminate |].
  destruct (negb (addr =? "")); [by_branches |].
  destruct (negb (url =? "")); [| discriminate].
  destruct (url_Parse url) as [u|]; [| discriminate].
  destruct (hostAndPort (Host u)) as [host port].
  pose proof (completePort_no_conflict (Scheme u) port) as Hn.
  destruct (completePort (Scheme u) port); [discriminate |].
  cbn [bind]. congruence.
Qed.

Lemma getHttpAddr_no_conflict (addr : string) :
  getHttpAddr addr <> Fatal ConflictingTransportModes.
Proof. unfold getHttpAddr. by_branches. Qed.

Lemma afterModes_no_conflict (f : Flags) :
  afterModes f <> Fatal ConflictingTransportModes.
Proof.
  unfold afterModes, resolveSse, resolveHttp.
  pose proof (getSseUrlAddr_no_conflict (sseUrl f) (sseAddr f)) as Hs.
  pose proof (getHttpAddr_no_conflict (httpAddr f)) as Hh.
  destruct (sseMode f), (httpMode f);
    try destruct (getSseUrlAddr (sseUrl f) (sseAddr f)) as [[? ?]|];
    try destruct (getHttpAddr (httpAddr f));
    cbn [bind]; try congruence;
    destruct (swagger_LoadSwagger (specUrl f)); discriminate.
Qed.

Lemma checkModes_spec (sse http : bool) :
  (checkModes sse http = Fatal ConflictingTransportModes <->
     sse = true /\ http = true) /\
  (checkModes sse http = Ok tt <-> ~ (sse = true /\ http = true)).
Proof.
  unfold checkModes, fatal_if.
  destruct sse, http; cbn [andb]; intuition congruence.
Qed.

(** What the streamable-HTTP stage leaves in [finalHttpPath] and
    [finalHttpAddr]. *)
Lemma resolveHttp_on (f : Flags) (hp ha : string) :
  httpMode f = true -> resolveHttp f = Ok (hp, ha) ->
  hp = (if httpPath f =? "" then "/mcp" else "") /\
  getHttpAddr (httpAddr f) = Ok ha.
Proof.
  unfold resolveHttp. intros -> H.
  apply bind_Ok_inv in H. destruct H as [a [Ha H]].
  injection H as <- <-. auto.
Qed.

Lemma resolveSse_on (f : Flags) (su sa : string) :
  sseMode f = true -> resolveSse f = Ok (su, sa) ->
  getSseUrlAddr (sseUrl f) (sseAddr f) = Ok (su, sa).
Proof. unfold resolveSse. now intros ->. Qed.

(** A [file://] source is neither empty nor an http(s) one. *)
Lemma file_prefix_excludes (s : string) :
  strings.HasPrefix s "file://" = true ->
  (s =? "") = false /\
  strings.HasPrefix s "http://" = false /\
  strings.HasPrefix s "https://" = false.
Proof.
  unfold strings.HasPrefix. destruct s as [|c s]; [discriminate |].
  rewrite !prefix_cons.
  destruct (ascii_dec "f" c) as [<- | _]; [| discriminate].
  intros _. repeat split.
Qed.

(** ** The spec source checks *)

(** C9. With an empty spec source the run ends in MissingSpecSource,
    whatever the other flags hold: no later check (base URL, transport
    modes, addresses) is reached, so none of their errors can be
    reported. *)
Theorem empty_spec_source_is_fatal (f : Flags) :
  specUrl f = "" -> main f = Fatal MissingSpecSource.
Proof.
  intros Hs. unfold main, validateSpec. rewrite Hs. reflexivity.
Qed.

Lemma validateSpec_file (f : Flags) :
  strings.HasPrefix (specUrl f) "file://" = true ->
  validateSpec f =
    fatal_if (os_IsNotExist (os_Stat (strings.TrimPrefix (specUrl f) "file://")))
      SpecFileNotFound.
Proof.
  intros Hf. destruct (file_prefix_excludes _ Hf) as [H0 [H1 H2]].
  unfold validateSpec. rewrite H0, H1, H2, Hf. reflexivity.
Qed.

Lemma validateSpec_other (f : Flags) :
  specUrl f <> "" ->
  strings.HasPrefix (specUrl f) "http://" = false ->
  strings.HasPrefix (specUrl f) "https://" = false ->
  strings.HasPrefix (specUrl f) "file://" = false ->
  validateSpec f = Fatal UnrecognizedSpecSourceScheme.
Proof.
  intros H0 H1 H2 H3. apply String.eqb_neq in H0.
  unfold validateSpec. rewrite H0, H1, H2, H3. reflexivity.
Qed.

(** C8. The spec source "file:///does/not/exist", whose file is not on
    disk, ends the run in SpecFileNotFound, and the spec source
    "not-a-scheme://x" ends it in UnrecognizedSpecSourceScheme, whatever
    the other flags hold; so does every [file://] source whose path is
    missing, and every non-empty source with none of the three
    prefixes. *)
Theorem spec_source_rejections (f : Flags) :
  (specUrl f = "file:///does/not/exist" ->
   os_Stat "/does/not/exist" = StatNotExist ->
   main f = Fatal SpecFileNotFound) /\
  (specUrl f = "not-a-scheme://x" ->
   main f = Fatal UnrecognizedSpecSourceScheme) /\
  (strings.HasPrefix (specUrl f) "file://" = true ->
   os_Stat (strings.TrimPrefix (specUrl f) "file://") = StatNotExist ->
   main f = Fatal SpecFileNotFound) /\
  (specUrl f <> "" ->
   strings.HasPrefix (specUrl f) "http://" = false ->
   strings.HasPrefix (specUrl f) "https://" = false ->
   strings.HasPrefix (specUrl f) "file://" = false ->
   main f = Fatal UnrecognizedSpecSourceScheme).
Proof.
  assert (Hfile : strings.HasPrefix (specUrl f) "file://" = true ->
                  os_Stat (strings.TrimPrefix (specUrl f) "file://") = StatNotExist ->
                  main f = Fatal SpecFileNotFound).
  { intros Hf Hstat. unfold main. rewrite (validateSpec_file f Hf), Hstat.
    reflexivity. }
  assert (Hother : specUrl f <> "" ->
                   strings.HasPrefix (specUrl f) "http://" = false ->
                   strings.HasPrefix (specUrl f) "https://" = false ->
                   strings.HasPrefix (specUrl f) "file://" = false ->
                   main f = Fatal UnrecognizedSpecSourceScheme).
  { intros H0 H1 H2 H3. unfold main.
    rewrite (validateSpec_other f H0 H1 H2 H3). reflexivity. }
  repeat split; try assumption.
  - intros Hs Hstat. apply Hfile; rewrite Hs; [reflexivity | exact Hstat].
  - intros Hs. apply Hother; rewrite Hs; try reflexivity. discriminate.
Qed.

(** ** The base URL check *)

(** C10. In every configuration a run hands over, a non-empty
    apiConfig.baseUrl begins with "http://" or "https://"; a non-empty
    base URL with another prefix ends the run in a fatal exit (in
    InvalidBaseUrl once the spec source has passed), so no configuration
    is built. *)
Theorem base_url_prefix (f : Flags) :
  (forall spec cfg,
     main f = Ok (spec, cfg) ->
     BaseUrl (ApiCfg cfg) <> "" ->
     strings.HasPrefix (BaseUrl (ApiCfg cfg)) "http://" = true \/
     strings.HasPrefix (BaseUrl (ApiCfg cfg)) "https://" = true) /\
  (baseUrl f <> "" ->
   strings.HasPrefix (baseUrl f) "http://" = false ->
   strings.HasPrefix (baseUrl f) "https://" = false ->
   (exists e, main f = Fatal e) /\
   (validateSpec f = Ok tt -> main f = Fatal InvalidBaseUrl)).
Proof.
  split.
  - intros spec cfg Hm Hne.
    destruct (main_Ok_inv f spec cfg Hm) as (_ & Hb & _ & su & sa & hp & ha & _ & _ & _ & ->).
    cbn [assemble ApiCfg BaseUrl] in *.
    apply String.eqb_neq in Hne.
    unfold validateBaseUrl in Hb. rewrite Hne in Hb. cbn [negb] in Hb.
    apply fatal_if_Ok in Hb.
    destruct (strings.HasPrefix (baseUrl f) "http://"); [now left |].
    destruct (strings.HasPrefix (baseUrl f) "https://"); [now right |].
    discriminate.
  - intros Hne H1 H2. apply String.eqb_neq in Hne.
    assert (Hb : validateBaseUrl f = Fatal InvalidBaseUrl).
    { unfold validateBaseUrl. rewrite Hne, H1, H2. reflexivity. }
    unfold main. rewrite Hb. split.
    + destruct (validateSpec f) as [u|e]; cbn [bind]; eauto.
    + intros ->. reflexivity.
Qed.

(** ** The mode arbiter *)

(** C7. The mode check is the fatal exit ConflictingTransportModes exactly
    when both mode flags are true and lets the run pass in the three other
    combinations.  For the whole run: ConflictingTransportModes is never
    reported unless both flags are true; a run that reaches the check
    (spec source and base URL accepted) reports it if and only if both are
    true, and otherwise continues with the address resolution; with both
    flags true no run gets past the check. *)
Theorem transport_modes_exclusive (f : Flags) :
  (forall sse http : bool,
     (checkModes sse http = Fatal ConflictingTransportModes <->
        sse = true /\ http = true) /\
     (checkModes sse http = Ok tt <-> ~ (sse = true /\ http = true))) /\
  (main f = Fatal ConflictingTransportModes ->
     sseMode f = true /\ httpMode f = true) /\
  (validateSpec f = Ok tt -> validateBaseUrl f = Ok tt ->
     (main f = Fatal ConflictingTransportModes <->
        sseMode f = true /\ httpMode f = true) /\
     (~ (sseMode f = true /\ httpMode f = true) -> main f = afterModes f)) /\
  (sseMode f = true -> httpMode f = true -> exists e, main f = Fatal e).
Proof.
  split; [exact checkModes_spec |].
  assert (Hconv : main f = Fatal ConflictingTransportModes ->
                  sseMode f = true /\ httpMode f = true).
  { unfold main. intros H.
    pose proof (validateSpec_no_conflict f) as N1.
    pose proof (validateBaseUrl_no_conflict f) as N2.
    pose proof (afterModes_no_conflict f) as N3.
    destruct (validateSpec f); cbn [bind] in H; [| congruence].
    destruct (validateBaseUrl f); cbn [bind] in H; [| congruence].
    destruct (sseMode f), (httpMode f); cbn in H; auto; congruence. }
  split; [exact Hconv |]. split.
  - intros H1 H2. unfold main. rewrite H1, H2. cbn [bind]. split.
    + split; [intros H; apply Hconv; unfold main; now rewrite H1, H2 |].
      intros [-> ->]. reflexivity.
    + intros Hn. destruct (sseMode f), (httpMode f); try reflexivity.
      elim Hn. auto.
  - intros Hs Hh. unfold main. rewrite Hs, Hh.
    destruct (validateSpec f); cbn [bind]; eauto.
    destruct (validateBaseUrl f); cbn [bind]; eauto.
    cbn. eauto.
Qed.

(** ** Streamable-HTTP mode *)

(** C2. In streamable-HTTP mode the mount path of the configuration handed
    over is "" for every non-empty value of the mount-path flag (the value
    is not copied), and it is "/mcp" exactly when the flag is empty. *)
Theorem http_mount_path (f : Flags) (spec : SwaggerSpec) (cfg : Config) :
  main f = Ok (spec, cfg) -> httpMode f = true ->
  (httpPath f <> "" -> HttpPath (HttpCfg cfg) = "") /\
  (HttpPath (HttpCfg cfg) = "/mcp" <-> httpPath f = "").
Proof.
  intros Hm Hmode.
  destruct (main_Ok_inv f spec cfg Hm) as (_ & _ & _ & su & sa & hp & ha & _ & Hh & _ & ->).
  destruct (resolveHttp_on f hp ha Hmode Hh) as [-> _].
  cbn [assemble HttpCfg HttpPath].
  destruct (String.eqb_spec (httpPath f) "") as [He | Hne].
  - split; [congruence | tauto].
  - split; [reflexivity |]. split; [discriminate | congruence].
Qed.

(** The single-input resolver returns the completed URL for the form
    :PORT, where the empty and the HOST:PORT forms return an address. *)
Lemma getHttpAddr_colon_port (port : string) :
  getHttpAddr (":" ++ port) = Ok ("http://localhost:" ++ port).
Proof.
  unfold getHttpAddr. rewrite (HasPrefix_append ":" port). reflexivity.
Qed.

(** C1. The run [--specUrl=https://api.example.com/swagger.json --http
    --httpAddr=:9000], with the URL accepted and the document loaded,
    hands over a configuration in streamable-HTTP mode with mount path
    "/mcp" and SSE disabled and empty, whose listen address is
    "http://localhost:9000" and so is not ":9000". *)
Theorem http_9000_configuration (spec : SwaggerSpec) :
  url_ParseRequestURI "https://api.example.com/swagger.json" = true ->
  swagger_LoadSwagger "https://api.example.com/swagger.json" = Some spec ->
  exists cfg,
    main flagsHttp9000 = Ok (spec, cfg) /\
    HttpMode (HttpCfg cfg) = true /\
    HttpPath (HttpCfg cfg) = "/mcp" /\
    SseCfg cfg = mkSseConfig false "" "" "" /\
    HttpAddr (HttpCfg cfg) = "http://localhost:9000" /\
    HttpAddr (HttpCfg cfg) <> ":9000".
Proof.
  intros Hp Hl.
  exists (assemble flagsHttp9000 "" "" "/mcp" "http://localhost:9000").
  split; [| cbn; repeat split; discriminate].
  apply main_Ok_intro; try reflexivity; try exact Hl.
  unfold validateSpec. cbn [flagsHttp9000 withHttp withSpec specUrl noFlags].
  change (strings.HasPrefix "https://api.example.com/swagger.json" "http://") with false.
  change (strings.HasPrefix "https://api.example.com/swagger.json" "https://") with true.
  cbn [String.eqb fatal_if bind orb]. rewrite Hp. reflexivity.
Qed.

(** ** SSE mode *)

(** C3, as the resolver has it.  When SSE mode is enabled and the
    configuration is handed over, the dialable URL and the listen address
    are both non-empty and the listen address holds a colon.  A supplied
    listen address is kept as given and the dialable URL is "http://"
    followed by it, with "localhost" put in front of an address that
    starts with ":"; with neither input the pair is the default one; with
    only a dialable URL supplied, the URL is kept as given and, when its
    host is HOST or HOST:PORT, the listen address is that host:port, with
    port 80 or 443 from the scheme when the URL has none. *)
Theorem sse_config_addresses (f : Flags) (spec : SwaggerSpec) (cfg : Config) :
  main f = Ok (spec, cfg) -> SseMode (SseCfg cfg) = true ->
  let url := SseUrl (SseCfg cfg) in
  let addr := SseAddr (SseCfg cfg) in
  url <> "" /\ addr <> "" /\ strings.Contains addr ":" = true /\
  (sseAddr f <> "" ->
     addr = sseAddr f /\
     url = (if strings.HasPrefix addr ":" then "http://localhost" else "http://")
             ++ addr) /\
  (sseAddr f = "" -> sseUrl f = "" ->
     url = "http://localhost:8080" /\ addr = "localhost:8080") /\
  (sseAddr f = "" -> sseUrl f <> "" ->
     url = sseUrl f /\
     exists u,
       url_Parse url = Some u /\
       (strings.Contains (Host u) ":" = false \/
        (exists h p, Host u = h ++ ":" ++ p /\
                     strings.Contains h ":" = false /\
                     strings.Contains p ":" = false /\ p <> "") ->
        sameHostPort url addr)).
Proof.
  intros Hm Hon url addr.
  destruct (main_Ok_inv f spec cfg Hm) as (_ & _ & _ & su & sa & hp & ha & Hs & _ & _ & ->).
  cbn [assemble SseCfg SseMode SseUrl SseAddr] in *. subst url addr.
  apply (resolveSse_on f su sa Hon) in Hs.
  destruct (getSseUrlAddr_Ok_shape _ _ _ _ Hs) as [Hu Hc].
  split; [exact Hu |]. split; [eapply Contains_nonempty; [exact Hc | discriminate] |].
  split; [exact Hc |].
  split; [| split].
  - intros Ha. rewrite (getSseUrlAddr_addr _ _ Ha) in Hs.
    destruct (strings.HasPrefix (sseAddr f) ":") eqn:Hp.
    + injection Hs as <- <-. now rewrite Hp.
    + destruct (strings.Contains (sseAddr f) ":"); [| discriminate].
      injection Hs as <- <-. now rewrite Hp.
  - intros Ha Hb. rewrite Ha, Hb in Hs. cbn in Hs. split; congruence.
  - intros Ha Hne. rewrite Ha in Hs. pose proof Hne as Hb.
    apply String.eqb_neq in Hb.
    unfold getSseUrlAddr in Hs. rewrite Hb in Hs.
    cbn [String.eqb andb negb] in Hs.
    destruct (url_Parse (sseUrl f)) as [u|] eqn:Hparse; [| discriminate].
    destruct (hostAndPort (Host u)) as [host port] eqn:Hhp.
    destruct (completePort (Scheme u) port) as [p|] eqn:Hport; [| discriminate].
    cbn [bind] in Hs. injection Hs as <- <-.
    split; [reflexivity |].
    exists u. split; [exact Hparse |].
    intros [Hfree | (h & q & Hh & Hch & Hcq & Hq)].
    + rewrite (hostAndPort_no_colon _ Hfree) in Hhp. injection Hhp as <- <-.
      exists u. split; [exact Hparse |]. right. split; [exact Hfree |].
      exists p. auto.
    + rewrite Hh, (hostAndPort_one_colon h q Hch Hcq) in Hhp.
      injection Hhp as <- <-.
      apply String.eqb_neq in Hq. unfold completePort in Hport.
      rewrite Hq in Hport. injection Hport as <-.
      exists u. split; [exact Hparse |]. left. exact Hh.
Qed.

End PipelineProperties.

(** * The properties on the executable environment *)

(** [--sse --sseAddr=:9000]: the pair handed over is
    ("http://localhost:9000", ":9000"); the URL's host:port is
    "localhost:9000", which is not the listen address. *)
Lemma sse_port_only_not_same_host_port :
  main flagsSse9000
  = Ok ("file:///tmp/spec.json",
        assemble flagsSse9000 "http://localhost:9000" ":9000" "" "") /\
  SseMode (SseCfg (assemble flagsSse9000 "http://localhost:9000" ":9000" "" ""))
  = true /\
  ~ sameHostPort (E := sampleExternals) "http://localhost:9000" ":9000".
Proof.
  split; [reflexivity |]. split; [reflexivity |].
  intros [u [Hparse Hsame]].
  vm_compute in Hparse. injection Hparse as <-.
  cbn [Host Scheme] in Hsame.
  destruct Hsame as [Heq | [Hfree _]]; discriminate.
Qed.

Lemma sse_config_addresses_witness :
  main flagsSseUrl
  = Ok ("file:///tmp/spec.json",
        assemble flagsSseUrl "https://example.com" "example.com:443" "" "") /\
  sameHostPort (E := sampleExternals) "https://example.com" "example.com:443".
Proof.
  split; [reflexivity |].
  pose proof (sse_config_addresses (E := sampleExternals) flagsSseUrl
                "file:///tmp/spec.json"
                (assemble flagsSseUrl "https://example.com" "example.com:443" "" "")
                eq_refl eq_refl) as H.
  cbv zeta in H. destruct H as (_ & _ & _ & _ & _ & H).
  destruct (H eq_refl ltac:(discriminate)) as [_ [u [Hparse Hsame]]].
  apply Hsame. left.
  vm_compute in Hparse. injection Hparse as <-. reflexivity.
Defined.

Lemma getSseUrlAddr_bracketed_host_witness :
  url_Parse (Externals := sampleExternals) "http://[::1]:8080"
  = Some (mkURL "http" "[::1]:8080") /\
  getSseUrlAddr (E := sampleExternals) "http://[::1]:8080" ""
  = Ok ("http://[::1]:8080", "[:80").
Proof.
  split; [reflexivity |].
  apply (getSseUrlAddr_bracketed_host (E := sampleExternals)). reflexivity.
Defined.

Lemma getSseUrlAddr_listen_address_witness :
  ":9000" <> "" /\
  getSseUrlAddr (E := sampleExternals) "https://example.com" ":9000"
  = Ok ("http://localhost:9000", ":9000").
Proof.
  assert (Hne : ":9000" <> "") by discriminate.
  split; [exact Hne |].
  apply (getSseUrlAddr_listen_address (E := sampleExternals)
           "https://example.com" ":9000" Hne).
  reflexivity.
Defined.

Lemma http_mount_path_witness :
  main flagsHttpPath
  = Ok ("https://api.example.com/swagger.json",
        assemble flagsHttpPath "" "" "" "http://localhost:9000") /\
  httpMode flagsHttpPath = true /\
  HttpPath (HttpCfg (assemble flagsHttpPath "" "" "" "http://localhost:9000")) = "".
Proof.
  split; [reflexivity |]. split; [reflexivity |].
  apply (http_mount_path (E := sampleExternals) flagsHttpPath
           "https://api.example.com/swagger.json"
           (assemble flagsHttpPath "" "" "" "http://localhost:9000")
           eq_refl eq_refl).
  discriminate.
Defined.

Lemma http_9000_configuration_witness :
  exists cfg,
    main flagsHttp9000 = Ok ("https://api.example.com/swagger.json", cfg) /\
    HttpMode (HttpCfg cfg) = true /\
    HttpPath (HttpCfg cfg) = "/mcp" /\
    SseCfg cfg = mkSseConfig false "" "" "" /\
    HttpAddr (HttpCfg cfg) = "http://localhost:9000" /\
    HttpAddr (HttpCfg cfg) <> ":9000".
Proof.
  apply (http_9000_configuration (E := sampleExternals)); reflexivity.
Defined.

Lemma transport_modes_exclusive_witness :
  validateSpec flagsBothModes = Ok tt /\
  validateBaseUrl flagsBothModes = Ok tt /\
  main flagsBothModes = Fatal ConflictingTransportModes.
Proof.
  split; [reflexivity |]. split; [reflexivity |].
  apply (transport_modes_exclusive (E := sampleExternals) flagsBothModes);
    [reflexivity | reflexivity | split; reflexivity].
Defined.

Lemma spec_source_rejections_witness :
  main (withSpec flagsBothModes "file:///does/not/exist") = Fatal SpecFileNotFound /\
  main (withSpec flagsBothModes "not-a-scheme://x") = Fatal UnrecognizedSpecSourceScheme.
Proof.
  split.
  - destruct (spec_source_rejections (E := sampleExternals)
                (withSpec flagsBothModes "file:///does/not/exist"))
      as (Hfile & _).
    apply Hfile; reflexivity.
  - destruct (spec_source_rejections (E := sampleExternals)
                (withSpec flagsBothModes "not-a-scheme://x"))
      as (_ & Hother & _).
    apply Hother; reflexivity.
Defined.

Lemma empty_spec_source_is_fatal_witness :
  specUrl flagsNoSpec = "" /\ main flagsNoSpec = Fatal MissingSpecSource.
Proof.
  split; [reflexivity |].
  apply (empty_spec_source_is_fatal (E := sampleExternals) flagsNoSpec).
  reflexivity.
Defined.

Lemma base_url_prefix_witness :
  main flagsBadBase = Fatal InvalidBaseUrl /\
  main flagsGoodBase
  = Ok ("file:///tmp/spec.json", assemble flagsGoodBase "" "" "" "") /\
  strings.HasPrefix (baseUrl flagsGoodBase) "https://" = true.
Proof.
  split.
  - apply (base_url_prefix (E := sampleExternals) flagsBadBase);
      try reflexivity. discriminate.
  - split; [reflexivity |].
    destruct (proj1 (base_url_prefix (E := sampleExternals) flagsGoodBase)
                "file:///tmp/spec.json" (assemble flagsGoodBase "" "" "" "")
                eq_refl ltac:(discriminate)) as [H | H];
      [discriminate H | exact H].
Defined.

(** * Further properties of the resolvers *)

(** ** More on strings *)

Lemma substring_all (s : string) : substring 0 (String.length s) s = s.
Proof.
  induction s as [|c s IH]; [reflexivity |].
  cbn [String.length substring]. now rewrite IH.
Qed.

(** [TrimPrefix] gives back what follows the prefix. *)
Lemma TrimPrefix_append (p s : string) : strings.TrimPrefix (p ++ s) p = s.
Proof.
  unfold strings.TrimPrefix. rewrite HasPrefix_append.
  induction p as [|c p IH].
  - cbn [append String.length]. rewrite Nat.sub_0_r. apply substring_all.
  - change (String c p ++ s) with (String c (p ++ s)).
    cbn [String.length substring]. exact IH.
Qed.

(** A string that holds a colon is cut at its first one. *)
Lemma first_colon (s : string) :
  strings.Contains s ":" = true ->
  exists a r, s = a ++ ":" ++ r /\ strings.Contains a ":" = false.
Proof.
  induction s as [|c s IH]; [discriminate |].
  cbn [strings.Contains]. rewrite prefix_cons.
  destruct (ascii_dec ":" c) as [<- | Hc].
  - intros _. exists "", s. split; reflexivity.
  - cbn [orb]. intros Hs. destruct (IH Hs) as (a & r & -> & Ha).
    exists (String c a), r. split; [reflexivity |].
    cbn [strings.Contains]. rewrite prefix_cons.
    destruct (ascii_dec ":" c) as [Heq | _]; [now elim Hc |].
    exact Ha.
Qed.

(** The two pieces [getSseUrlAddr] keeps of a host hold no colon. *)
Lemma hostAndPort_colon_free (h : string) :
  strings.Contains (fst (hostAndPort h)) ":" = false /\
  strings.Contains (snd (hostAndPort h)) ":" = false.
Proof.
  destruct (strings.Contains h ":") eqn:Hc.
  - destruct (first_colon h Hc) as (a & r & -> & Ha).
    unfold hostAndPort, strings.Split.
    rewrite (Contains_append a ":" r), (split_from_first_colon "" a r Ha).
    cbn [nth fst snd append]. split; [exact Ha |].
    destruct (strings.Contains r ":") eqn:Hr.
    + destruct (first_colon r Hr) as (b & t & -> & Hb).
      rewrite (split_from_first_colon "" b t Hb). exact Hb.
    + rewrite (split_from_colon_free "" r Hr). exact Hr.
  - rewrite (hostAndPort_no_colon h Hc). split; [exact Hc | reflexivity].
Qed.

Section SingleInputResolver.

(** ** The single-input resolver *)

(** The branches of [getHttpAddr] as one chain of tests. *)
Lemma getHttpAddr_cases (httpAddr : string) :
  getHttpAddr httpAddr =
    if httpAddr =? "" then Ok "localhost:8080"
    else if strings.HasPrefix httpAddr ":" then Ok ("http://localhost" ++ httpAddr)
    else if strings.Contains httpAddr ":" then Ok httpAddr
    else Fatal InvalidAddressFormat.
Proof.
  unfold getHttpAddr.
  destruct (httpAddr =? ""); [reflexivity |].
  destruct (strings.HasPrefix httpAddr ":"); [reflexivity |].
  destruct (strings.Contains httpAddr ":"); reflexivity.
Qed.

(** X1. [getHttpAddr] by the shape of its input: the empty address gives
    "localhost:8080"; :PORT gives "http://localhost:PORT"; HOST:PORT with
    a non-empty host is returned as given; a non-empty address without a
    colon is the fatal exit InvalidAddressFormat. *)
Theorem getHttpAddr_by_shape (httpAddr : string) :
  (httpAddr = "" -> getHttpAddr httpAddr = Ok "localhost:8080") /\
  (forall port, httpAddr = ":" ++ port ->
     getHttpAddr httpAddr = Ok ("http://localhost:" ++ port)) /\
  (forall host port,
     httpAddr = host ++ ":" ++ port ->
     host <> "" -> strings.Contains host ":" = false ->
     getHttpAddr httpAddr = Ok httpAddr) /\
  (httpAddr <> "" -> strings.Contains httpAddr ":" = false ->
     getHttpAddr httpAddr = Fatal InvalidAddressFormat).
Proof.
  rewrite getHttpAddr_cases. repeat split.
  - intros ->. reflexivity.
  - intros port ->. rewrite (HasPrefix_append ":" port). reflexivity.
  - intros host port -> Hh Hc.
    assert (Hne : (host ++ ":" ++ port =? "") = false).
    { apply String.eqb_neq. destruct host; [now elim Hh | discriminate]. }
    rewrite Hne, (HasPrefix_colon_free host (":" ++ port) Hh Hc).
    now rewrite (Contains_append host ":" port).
  - intros Hne Hc. apply String.eqb_neq in Hne. rewrite Hne, Hc.
    destruct (strings.HasPrefix httpAddr ":") eqn:Hp; [| reflexivity].
    apply HasPrefix_Contains in Hp. congruence.
Qed.

(** The two outcomes of [getHttpAddr], each with what it tells about
    the input and the result. *)
Lemma getHttpAddr_dichotomy (httpAddr : string) :
  (exists r,
     getHttpAddr httpAddr = Ok r /\
     (httpAddr = "" \/ strings.Contains httpAddr ":" = true) /\
     r <> "" /\ strings.Contains r ":" = true /\
     strings.HasPrefix r ":" = false) \/
  (getHttpAddr httpAddr = Fatal InvalidAddressFormat /\
   httpAddr <> "" /\ strings.Contains httpAddr ":" = false).
Proof.
  rewrite getHttpAddr_cases.
  destruct (String.eqb_spec httpAddr "") as [-> | Hne].
  - left. exists "localhost:8080".
    split; [reflexivity |]. split; [now left |].
    split; [discriminate |]. split; reflexivity.
  - destruct (strings.HasPrefix httpAddr ":") eqn:Hp.
    + left. exists ("http://localhost" ++ httpAddr).
      pose proof (HasPrefix_Contains _ _ Hp) as Hc.
      split; [reflexivity |]. split; [now right |].
      split; [discriminate |]. split; [| reflexivity].
      exact (Contains_append "http" ":" ("//localhost" ++ httpAddr)).
    + destruct (strings.Contains httpAddr ":") eqn:Hc.
      * left. exists httpAddr.
        split; [reflexivity |]. split; [now right |]. auto.
      * right. auto.
Qed.

(** X2. [getHttpAddr] succeeds exactly on the empty address and on
    addresses that hold a colon; its only fatal exit is
    InvalidAddressFormat; and what it returns is never empty, holds a
    colon and does not start with one. *)
Theorem getHttpAddr_outcomes (httpAddr : string) :
  ((exists r, getHttpAddr httpAddr = Ok r) <->
     httpAddr = "" \/ strings.Contains httpAddr ":" = true) /\
  (forall e, getHttpAddr httpAddr = Fatal e -> e = InvalidAddressFormat) /\
  (forall r, getHttpAddr httpAddr = Ok r ->
     r <> "" /\ strings.Contains r ":" = true /\ strings.HasPrefix r ":" = false).
Proof.
  destruct (getHttpAddr_dichotomy httpAddr)
    as [(r0 & Hr & Hin & Hne & Hc & Hp) | (Hf & Hne & Hc)].
  - rewrite Hr. split; [| split].
    + split; [intros _; exact Hin | intros _; eauto].
    + discriminate.
    + intros r [= <-]. auto.
  - rewrite Hf. split; [| split].
    + split; [intros [r Hr]; discriminate |].
      intros [H | H]; [now elim Hne | congruence].
    + now intros e [= <-].
    + discriminate.
Qed.

(** X3. [getHttpAddr] is idempotent: resolving a resolved address gives
    it back. *)
Theorem getHttpAddr_idempotent (httpAddr r : string) :
  getHttpAddr httpAddr = Ok r -> getHttpAddr r = Ok r.
Proof.
  intros H.
  destruct (getHttpAddr_dichotomy httpAddr)
    as [(r0 & Hr & _ & Hne & Hc & Hp) | (Hf & _)]; [| congruence].
  assert (r0 = r) as -> by congruence.
  apply String.eqb_neq in Hne.
  rewrite getHttpAddr_cases, Hne, Hp, Hc. reflexivity.
Qed.

End SingleInputResolver.

(** ** More on the dual-input resolver *)

(** The two outcomes of [completePort]. *)
Lemma completePort_dichotomy (scheme port : string) :
  (exists q,
     completePort scheme port = Ok q /\ q <> "" /\
     (port <> "" -> q = port) /\
     (port = "" -> (scheme = "http" /\ q = "80") \/ (scheme = "https" /\ q = "443"))) \/
  (completePort scheme port = Fatal UnsupportedScheme /\
   port = "" /\ scheme <> "http" /\ scheme <> "https").
Proof.
  unfold completePort.
  destruct (String.eqb_spec port "") as [-> | Hp].
  - destruct (String.eqb_spec scheme "http") as [-> | H1].
    + left. exists "80". split; [reflexivity |]. split; [discriminate |].
      split; [intros H; now elim H | intros _; left; auto].
    + destruct (String.eqb_spec scheme "https") as [-> | H2].
      * left. exists "443". split; [reflexivity |]. split; [discriminate |].
        split; [intros H; now elim H | intros _; right; auto].
      * right. auto.
  - left. exists port. split; [reflexivity |]. split; [exact Hp |].
    split; [reflexivity | intros H; now elim Hp].
Qed.

(** X4. A listen address, when given, decides the result alone: the
    dialable URL input is neither parsed nor used, whatever it is and
    whatever the URL parser does. *)
Theorem getSseUrlAddr_listen_address_first
  (E1 E2 : Externals) (url1 url2 sseAddr : string) :
  sseAddr <> "" ->
  getSseUrlAddr (E := E1) url1 sseAddr = getSseUrlAddr (E := E2) url2 sseAddr.
Proof.
  intros Hne.
  rewrite (getSseUrlAddr_addr (E := E1) url1 sseAddr Hne).
  rewrite (getSseUrlAddr_addr (E := E2) url2 sseAddr Hne).
  reflexivity.
Qed.

Section DualInputResolver.

Context {E : Externals}.

Ltac exit_goal :=
  try discriminate; try congruence; try tauto;
  try (intros ? [= <-]; tauto).

Ltac exits :=
  split; [| split; [| split; [| split]]];
  try (split; intros H; [exit_goal | decompose [and ex] H; exit_goal]);
  exit_goal.

(** The branches of [getSseUrlAddr] as one chain of tests. *)
Lemma getSseUrlAddr_cases (sseUrl sseAddr : string) :
  getSseUrlAddr sseUrl sseAddr =
    if sseAddr =? "" then
      if sseUrl =? "" then Ok ("http://localhost:8080", "localhost:8080")
      else
        match url_Parse sseUrl with
        | None => Fatal InvalidSseUrl
        | Some u =>
            port <- completePort (Scheme u) (snd (hostAndPort (Host u))) ;;
            Ok (sseUrl, fst (hostAndPort (Host u)) ++ ":" ++ port)
        end
    else if strings.HasPrefix sseAddr ":" then Ok ("http://localhost" ++ sseAddr, sseAddr)
    else if strings.Contains sseAddr ":" then Ok ("http://" ++ sseAddr, sseAddr)
    else Fatal InvalidAddressFormat.
Proof.
  destruct (String.eqb_spec sseAddr "") as [-> | Ha].
  - destruct (String.eqb_spec sseUrl "") as [-> | Hu]; [reflexivity |].
    destruct (url_Parse sseUrl) as [u|] eqn:Hparse.
    + exact (getSseUrlAddr_url sseUrl u Hu Hparse).
    + unfold getSseUrlAddr. apply String.eqb_neq in Hu.
      now rewrite Hu, Hparse.
  - exact (getSseUrlAddr_addr sseUrl sseAddr Ha).
Qed.

(** When each fatal exit of [getSseUrlAddr] is taken. *)
Lemma getSseUrlAddr_exit_table (sseUrl sseAddr : string) :
  (getSseUrlAddr sseUrl sseAddr = Fatal InvalidAddressFormat <->
     sseAddr <> "" /\ strings.Contains sseAddr ":" = false) /\
  (getSseUrlAddr sseUrl sseAddr = Fatal InvalidSseUrl <->
     sseAddr = "" /\ sseUrl <> "" /\ url_Parse sseUrl = None) /\
  (getSseUrlAddr sseUrl sseAddr = Fatal UnsupportedScheme <->
     sseAddr = "" /\ sseUrl <> "" /\
     exists u, url_Parse sseUrl = Some u /\
               snd (hostAndPort (Host u)) = "" /\
               Scheme u <> "http" /\ Scheme u <> "https") /\
  (forall e, getSseUrlAddr sseUrl sseAddr = Fatal e ->
     e = InvalidAddressFormat \/ e = InvalidSseUrl \/ e = UnsupportedScheme) /\
  getSseUrlAddr sseUrl sseAddr <> Fatal MissingAddress.
Proof.
  rewrite getSseUrlAddr_cases.
  destruct (String.eqb_spec sseAddr "") as [-> | Ha].
  - destruct (String.eqb_spec sseUrl "") as [-> | Hu].
    + exits.
    + destruct (url_Parse sseUrl) as [u|] eqn:Hparse.
      * destruct (completePort_dichotomy (Scheme u) (snd (hostAndPort (Host u))))
          as [(q & Hq & _ & _ & Hd) | (Hf & Hp & H1 & H2)].
        -- rewrite Hq. cbn [bind]. exits.
           match goal with
           | Hi : Some _ = Some _ |- _ => injection Hi as <-
           end.
           match goal with
           | Hs : snd _ = "" |- _ =>
               destruct (Hd Hs) as [[? _] | [? _]]; contradiction
           end.
        -- rewrite Hf. cbn [bind]. exits.
           repeat split; auto. exists u. auto.
      * exits.
  - destruct (strings.HasPrefix sseAddr ":") eqn:Hp.
    + pose proof (HasPrefix_Contains _ _ Hp) as Hc. exits.
    + destruct (strings.Contains sseAddr ":") eqn:Hc; exits.
Qed.

(** X5. The fatal exits of [getSseUrlAddr]: InvalidAddressFormat exactly
    for a non-empty listen address without a colon; InvalidSseUrl exactly
    when only a URL is given and it does not parse; UnsupportedScheme
    exactly when only a URL is given, it parses, no port is read off its
    host and its scheme is neither http nor https.  There is no other
    one: the exit MissingAddress of its last branch is never taken. *)
Theorem getSseUrlAddr_fatal_exits (sseUrl sseAddr : string) :
  (getSseUrlAddr sseUrl sseAddr = Fatal InvalidAddressFormat <->
     sseAddr <> "" /\ strings.Contains sseAddr ":" = false) /\
  (getSseUrlAddr sseUrl sseAddr = Fatal InvalidSseUrl <->
     sseAddr = "" /\ sseUrl <> "" /\ url_Parse sseUrl = None) /\
  (getSseUrlAddr sseUrl sseAddr = Fatal UnsupportedScheme <->
     sseAddr = "" /\ sseUrl <> "" /\
     exists u, url_Parse sseUrl = Some u /\
               snd (hostAndPort (Host u)) = "" /\
               Scheme u <> "http" /\ Scheme u <> "https") /\
  (forall e, getSseUrlAddr sseUrl sseAddr = Fatal e ->
     e = InvalidAddressFormat \/ e = InvalidSseUrl \/ e = UnsupportedScheme) /\
  getSseUrlAddr sseUrl sseAddr <> Fatal MissingAddress.
Proof. exact (getSseUrlAddr_exit_table sseUrl sseAddr). Qed.

(** X8. With only a dialable URL given, every listen address returned
    is HOST:PORT with exactly one colon: host and port hold none, and the
    port is never empty. *)
Theorem getSseUrlAddr_url_listen_shape (sseUrl dialable listen : string) :
  sseUrl <> "" ->
  getSseUrlAddr sseUrl "" = Ok (dialable, listen) ->
  exists host port,
    listen = host ++ ":" ++ port /\
    strings.Contains host ":" = false /\
    strings.Contains port ":" = false /\
    port <> "".
Proof.
  intros Hu. rewrite getSseUrlAddr_cases. apply String.eqb_neq in Hu.
  rewrite Hu. cbn [String.eqb].
  destruct (url_Parse sseUrl) as [u|]; [| discriminate].
  destruct (hostAndPort_colon_free (Host u)) as [Hh Hp].
  destruct (completePort_dichotomy (Scheme u) (snd (hostAndPort (Host u))))
    as [(q & Hq & Hne & Hkeep & Hdef) | (Hf & _)];
    [rewrite Hq | rewrite Hf; discriminate].
  cbn [bind]. intros [= <- <-].
  exists (fst (hostAndPort (Host u))), q.
  split; [reflexivity |]. split; [exact Hh |]. split; [| exact Hne].
  destruct (String.eqb_spec (snd (hostAndPort (Host u))) "") as [He | Hn].
  - destruct (Hdef He) as [[_ ->] | [_ ->]]; reflexivity.
  - now rewrite (Hkeep Hn).
Qed.

End DualInputResolver.

(** X9. What [getSseUrlAddr] reads off a host that holds a colon: the
    split has at least the two pieces it indexes; the host kept is the
    text before the first colon and the port the text between the first
    colon and the second, or the end; whatever follows a second colon is
    dropped. *)
Theorem hostAndPort_pieces (h : string) :
  strings.Contains h ":" = true ->
  2 <= List.length (strings.Split h ":") /\
  exists tail,
    h = fst (hostAndPort h) ++ ":" ++ snd (hostAndPort h) ++ tail /\
    (tail = "" \/ exists t, tail = ":" ++ t) /\
    strings.Contains (fst (hostAndPort h)) ":" = false /\
    strings.Contains (snd (hostAndPort h)) ":" = false.
Proof.
  intros Hc. split; [exact (Split_colon_length h Hc) |].
  destruct (first_colon h Hc) as (a & r & -> & Ha).
  unfold hostAndPort, strings.Split.
  rewrite (Contains_append a ":" r), (split_from_first_colon "" a r Ha).
  cbn [nth fst snd]. change ("" ++ a) with a.
  destruct (strings.Contains r ":") eqn:Hr.
  - destruct (first_colon r Hr) as (b & t & -> & Hb).
    rewrite (split_from_first_colon "" b t Hb). change ("" ++ b) with b.
    exists (":" ++ t). repeat split; eauto.
  - rewrite (split_from_colon_free "" r Hr). change ("" ++ r) with r.
    exists "". rewrite append_nil_r. repeat split; auto.
Qed.

(** * Further properties of [main] *)

Section RunProperties.

Context {E : Externals}.

(** ** Which stage ends a run *)

Lemma validateSpec_exits (f : Flags) (e : FatalError) :
  validateSpec f = Fatal e ->
  e = MissingSpecSource \/ e = InvalidSpecUrl \/
  e = SpecFileNotFound \/ e = UnrecognizedSpecSourceScheme.
Proof.
  unfold validateSpec, fatal_if, bind.
  destruct (specUrl f =? ""); [intros [= <-]; auto |].
  destruct (strings.HasPrefix (specUrl f) "http://" ||
            strings.HasPrefix (specUrl f) "https://").
  - destruct (negb (url_ParseRequestURI (specUrl f)));
      [intros [= <-]; auto | discriminate].
  - destruct (strings.HasPrefix (specUrl f) "file://");
      [| intros [= <-]; auto].
    destruct (os_IsNotExist _); [intros [= <-]; auto | discriminate].
Qed.

Lemma validateBaseUrl_exits (f : Flags) (e : FatalError) :
  validateBaseUrl f = Fatal e -> e = InvalidBaseUrl.
Proof.
  unfold validateBaseUrl, fatal_if.
  destruct (negb (baseUrl f =? "")); [| discriminate].
  destruct (_ && _); [now intros [= <-] | discriminate].
Qed.

Lemma checkModes_exits (sse http : bool) (e : FatalError) :
  checkModes sse http = Fatal e ->
  e = ConflictingTransportModes /\ sse = true /\ http = true.
Proof.
  unfold checkModes, fatal_if.
  destruct sse, http; cbn [andb]; try discriminate. now intros [= <-].
Qed.

Lemma resolveSse_exits (f : Flags) (e : FatalError) :
  resolveSse f = Fatal e ->
  sseMode f = true /\ getSseUrlAddr (sseUrl f) (sseAddr f) = Fatal e.
Proof.
  unfold resolveSse. destruct (sseMode f); [auto | discriminate].
Qed.

Lemma resolveHttp_exits (f : Flags) (e : FatalError) :
  resolveHttp f = Fatal e ->
  httpMode f = true /\ e = InvalidAddressFormat /\
  httpAddr f <> "" /\ strings.Contains (httpAddr f) ":" = false.
Proof.
  unfold resolveHttp. destruct (httpMode f); [| discriminate].
  destruct (getHttpAddr_dichotomy (httpAddr f))
    as [(r & Hr & _) | (Hf & Hne & Hc)]; [rewrite Hr | rewrite Hf];
    cbn [bind]; [discriminate |].
  intros [= <-]. auto.
Qed.

(** A failed run stopped at the first stage that failed, in the order
    spec source, base URL, modes, SSE addresses, HTTP address, loader. *)
Lemma main_Fatal_inv (f : Flags) (e : FatalError) :
  main f = Fatal e ->
  validateSpec f = Fatal e \/
  validateSpec f = Ok tt /\
  (validateBaseUrl f = Fatal e \/
   validateBaseUrl f = Ok tt /\
   (checkModes (sseMode f) (httpMode f) = Fatal e \/
    checkModes (sseMode f) (httpMode f) = Ok tt /\
    (resolveSse f = Fatal e \/
     exists su sa,
       resolveSse f = Ok (su, sa) /\
       (resolveHttp f = Fatal e \/
        exists hp ha,
          resolveHttp f = Ok (hp, ha) /\
          swagger_LoadSwagger (specUrl f) = None /\
          e = LoadSwaggerFailed)))).
Proof.
  unfold main, afterModes.
  destruct (validateSpec f) as [[]|e1]; cbn [bind]; [| intros [= <-]; auto].
  intros H. right. split; [reflexivity |]. revert H.
  destruct (validateBaseUrl f) as [[]|e2]; cbn [bind]; [| intros [= <-]; auto].
  intros H. right. split; [reflexivity |]. revert H.
  destruct (checkModes (sseMode f) (httpMode f)) as [[]|e3]; cbn [bind];
    [| intros [= <-]; auto].
  intros H. right. split; [reflexivity |]. revert H.
  destruct (resolveSse f) as [[su sa]|e4]; cbn [bind]; [| intros [= <-]; auto].
  intros H. right. exists su, sa. split; [reflexivity |]. revert H.
  destruct (resolveHttp f) as [[hp ha]|e5]; cbn [bind]; [| intros [= <-]; auto].
  intros H. right. exists hp, ha. split; [reflexivity |]. revert H.
  destruct (swagger_LoadSwagger (specUrl f)); [discriminate |].
  intros [= <-]. auto.
Qed.

(** The stage a given exit belongs to decides where a run that reports
    it stopped. *)
Ltac stage_of H :=
  apply main_Fatal_inv in H;
  destruct H as [H | [Hvs [H | [Hvb [H | [Hcm [H | (su & sa & Hrs & [H | (hp & ha & Hrh & Hl & H)])]]]]]]];
  [ let Hx := fresh "Hx" in
    pose proof (validateSpec_exits _ _ H) as Hx;
    try (decompose [or] Hx; congruence)
  | let Hx := fresh "Hx" in
    pose proof (validateBaseUrl_exits _ _ H) as Hx; try congruence
  | apply checkModes_exits in H; try (destruct H as (H & _); congruence)
  | apply resolveSse_exits in H;
    try (destruct H as (_ & H);
         apply (proj1 (proj2 (proj2 (proj2 (getSseUrlAddr_exit_table _ _))))) in H;
         decompose [or] H; congruence)
  | apply resolveHttp_exits in H; try (destruct H as (_ & H & _); congruence)
  | try congruence ].

Lemma checkModes_Ok (sse http : bool) :
  checkModes sse http = Ok tt -> sse = false \/ http = false.
Proof. destruct sse, http; cbn; auto; discriminate. Qed.

(** ** The modes and the fields of a disabled transport *)

(** X10. In every configuration handed over, the two mode fields are
    the mode flags and are never both true, and a transport whose mode is
    off has its address fields empty, whatever its address flags hold. *)
Theorem config_modes (f : Flags) (spec : SwaggerSpec) (cfg : Config) :
  main f = Ok (spec, cfg) ->
  SseMode (SseCfg cfg) = sseMode f /\
  HttpMode (HttpCfg cfg) = httpMode f /\
  ~ (SseMode (SseCfg cfg) = true /\ HttpMode (HttpCfg cfg) = true) /\
  (sseMode f = false ->
     SseAddr (SseCfg cfg) = "" /\ SseUrl (SseCfg cfg) = "") /\
  (httpMode f = false ->
     HttpAddr (HttpCfg cfg) = "" /\ HttpPath (HttpCfg cfg) = "").
Proof.
  intros Hm.
  destruct (main_Ok_inv f spec cfg Hm)
    as (_ & _ & Hcm & su & sa & hp & ha & Hs & Hh & _ & ->).
  cbn [assemble SseCfg HttpCfg SseMode HttpMode SseAddr SseUrl HttpAddr HttpPath].
  split; [reflexivity |]. split; [reflexivity |]. split; [| split].
  - apply checkModes_Ok in Hcm. intros [H1 H2].
    destruct Hcm; congruence.
  - intros Hoff. unfold resolveSse in Hs. rewrite Hoff in Hs.
    injection Hs as <- <-. auto.
  - intros Hoff. unfold resolveHttp in Hh. rewrite Hoff in Hh.
    injection Hh as <- <-. auto.
Qed.

(** X11. With both modes off (stdio), a run succeeds exactly when the
    spec source and the base URL pass and the document loads, and the
    configuration then has all four address fields empty: the address
    flags are not looked at, not even for their format. *)
Theorem stdio_run (f : Flags) (spec : SwaggerSpec) (cfg : Config) :
  sseMode f = false -> httpMode f = false ->
  (main f = Ok (spec, cfg) <->
   validateSpec f = Ok tt /\ validateBaseUrl f = Ok tt /\
   swagger_LoadSwagger (specUrl f) = Some spec /\
   cfg = assemble f "" "" "" "").
Proof.
  intros Hs Hh. split.
  - intros Hm.
    destruct (main_Ok_inv f spec cfg Hm)
      as (Hvs & Hvb & _ & su & sa & hp & ha & Hrs & Hrh & Hl & ->).
    unfold resolveSse in Hrs. unfold resolveHttp in Hrh.
    rewrite Hs in Hrs. rewrite Hh in Hrh.
    injection Hrs as <- <-. injection Hrh as <- <-. auto.
  - intros (Hvs & Hvb & Hl & ->).
    apply main_Ok_intro; auto.
    + now rewrite Hs, Hh.
    + unfold resolveSse. now rewrite Hs.
    + unfold resolveHttp. now rewrite Hh.
Qed.

(** X12. In streamable-HTTP mode the listen address handed over is what
    [getHttpAddr] returns for the flag: never empty, holding a colon, not
    starting with one; the SSE part of the configuration is off and
    empty. *)
Theorem http_config_address (f : Flags) (spec : SwaggerSpec) (cfg : Config) :
  main f = Ok (spec, cfg) -> httpMode f = true ->
  getHttpAddr (httpAddr f) = Ok (HttpAddr (HttpCfg cfg)) /\
  HttpAddr (HttpCfg cfg) <> "" /\
  strings.Contains (HttpAddr (HttpCfg cfg)) ":" = true /\
  strings.HasPrefix (HttpAddr (HttpCfg cfg)) ":" = false /\
  SseMode (SseCfg cfg) = false /\
  SseAddr (SseCfg cfg) = "" /\ SseUrl (SseCfg cfg) = "".
Proof.
  intros Hm Hon.
  destruct (main_Ok_inv f spec cfg Hm)
    as (_ & _ & Hcm & su & sa & hp & ha & Hs & Hh & _ & ->).
  cbn [assemble SseCfg HttpCfg SseMode HttpAddr SseAddr SseUrl].
  destruct (resolveHttp_on f hp ha Hon Hh) as [_ Hget].
  apply checkModes_Ok in Hcm. destruct Hcm as [Hoff | Hoff]; [| congruence].
  unfold resolveSse in Hs. rewrite Hoff in Hs. injection Hs as <- <-.
  destruct (getHttpAddr_dichotomy (httpAddr f))
    as [(r & Hr & _ & Hne & Hc & Hp) | (Hf & _)]; [| congruence].
  assert (r = ha) as -> by congruence.
  auto 10.
Qed.

(** X13. Every other flag reaches the configuration unchanged: the spec
    source, the two header lists and the ten API fields are copied as
    given, none is parsed, trimmed or defaulted. *)
Theorem config_pass_through (f : Flags) (spec : SwaggerSpec) (cfg : Config) :
  main f = Ok (spec, cfg) ->
  SpecUrl cfg = specUrl f /\
  SseHeaders (SseCfg cfg) = sseHeaders f /\
  HttpHeaders (HttpCfg cfg) = httpHeaders f /\
  ApiCfg cfg =
    mkApiConfig (baseUrl f) (includePaths f) (excludePaths f)
      (includeMethods f) (excludeMethods f) (security f) (basicAuth f)
      (apiKeyAuth f) (bearerAuth f) (headers f).
Proof.
  intros Hm.
  destruct (main_Ok_inv f spec cfg Hm)
    as (_ & _ & _ & su & sa & hp & ha & _ & _ & _ & ->).
  repeat split.
Qed.

(** ** When each fatal exit is reported *)

Lemma HasPrefix_nonempty (s p : string) :
  strings.HasPrefix s p = true -> p <> "" -> (s =? "") = false.
Proof.
  intros Hp Hne. apply String.eqb_neq. intros ->.
  destruct p; [now elim Hne | discriminate].
Qed.

(** X14. LoadSwaggerFailed is reported exactly when every check and
    both resolvers have passed and the loader fails: the document is
    loaded last, and never for flags that are rejected. *)
Theorem load_failure_is_last (f : Flags) :
  main f = Fatal LoadSwaggerFailed <->
  validateSpec f = Ok tt /\ validateBaseUrl f = Ok tt /\
  checkModes (sseMode f) (httpMode f) = Ok tt /\
  (exists su sa, resolveSse f = Ok (su, sa)) /\
  (exists hp ha, resolveHttp f = Ok (hp, ha)) /\
  swagger_LoadSwagger (specUrl f) = None.
Proof.
  split.
  - intros H. stage_of H. eauto 10.
  - intros (Hvs & Hvb & Hcm & (su & sa & Hs) & (hp & ha & Hh) & Hl).
    unfold main, afterModes. rewrite Hvs, Hvb, Hcm, Hs, Hh. cbn [bind].
    now rewrite Hl.
Qed.

(** X15. InvalidAddressFormat is reported exactly when the spec source
    and the base URL have passed, exactly one mode is on, and the listen
    address flag of that mode is non-empty and holds no colon. *)
Theorem address_format_exit (f : Flags) :
  main f = Fatal InvalidAddressFormat <->
  validateSpec f = Ok tt /\ validateBaseUrl f = Ok tt /\
  ((sseMode f = true /\ httpMode f = false /\
    sseAddr f <> "" /\ strings.Contains (sseAddr f) ":" = false) \/
   (sseMode f = false /\ httpMode f = true /\
    httpAddr f <> "" /\ strings.Contains (httpAddr f) ":" = false)).
Proof.
  split.
  - intros H. stage_of H.
    + destruct H as [Hon H].
      apply (proj1 (getSseUrlAddr_exit_table _ _)) in H.
      apply checkModes_Ok in Hcm. destruct Hcm as [Hoff | Hoff]; [congruence |].
      split; [exact Hvs |]. split; [exact Hvb |]. left. tauto.
    + destruct H as (Hon & _ & Hne & Hc).
      apply checkModes_Ok in Hcm. destruct Hcm as [Hoff | Hoff]; [| congruence].
      split; [exact Hvs |]. split; [exact Hvb |]. right. tauto.
  - intros (Hvs & Hvb & [(Hs & Hh & Hne & Hc) | (Hs & Hh & Hne & Hc)]);
      unfold main, afterModes, resolveSse, resolveHttp;
      rewrite Hvs, Hvb, Hs, Hh; cbn [bind checkModes fatal_if andb].
    + rewrite (proj2 (proj1 (getSseUrlAddr_exit_table (sseUrl f) (sseAddr f)))
                 (conj Hne Hc)).
      reflexivity.
    + destruct (getHttpAddr_dichotomy (httpAddr f))
        as [(r & _ & [He | Ht] & _) | (Hf & _)];
        [now elim Hne | congruence |].
      rewrite Hf. reflexivity.
Qed.

(** X16. InvalidSpecUrl is reported exactly when the spec source starts
    with "http://" or "https://" and is not a valid request URI; nothing
    else about the flags matters. *)
Theorem spec_url_exit (f : Flags) :
  main f = Fatal InvalidSpecUrl <->
  (strings.HasPrefix (specUrl f) "http://" = true \/
   strings.HasPrefix (specUrl f) "https://" = true) /\
  url_ParseRequestURI (specUrl f) = false.
Proof.
  split.
  - intros H. stage_of H. clear Hx. revert H.
    unfold validateSpec, fatal_if, bind.
    destruct (specUrl f =? ""); [discriminate |].
    destruct (strings.HasPrefix (specUrl f) "http://");
      destruct (strings.HasPrefix (specUrl f) "https://"); cbn [orb];
      try (destruct (url_ParseRequestURI (specUrl f)); cbn [negb];
           [discriminate | auto]).
    destruct (strings.HasPrefix (specUrl f) "file://"); [| discriminate].
    destruct (os_IsNotExist _); discriminate.
  - intros [Hp Hu].
    assert (Hne : (specUrl f =? "") = false).
    { destruct Hp as [Hp | Hp];
        apply (HasPrefix_nonempty _ _ Hp); discriminate. }
    assert (Hor : strings.HasPrefix (specUrl f) "http://" ||
                  strings.HasPrefix (specUrl f) "https://" = true).
    { destruct Hp as [-> | ->]; [reflexivity | apply orb_true_r]. }
    unfold main, validateSpec. rewrite Hne, Hor, Hu. reflexivity.
Qed.

(** X17. InvalidBaseUrl is reported exactly when the spec source has
    passed and the base URL is non-empty and starts with neither
    "http://" nor "https://": an empty base URL is accepted, and the
    modes and addresses are not looked at before. *)
Theorem base_url_exit (f : Flags) :
  main f = Fatal InvalidBaseUrl <->
  validateSpec f = Ok tt /\ baseUrl f <> "" /\
  strings.HasPrefix (baseUrl f) "http://" = false /\
  strings.HasPrefix (baseUrl f) "https://" = false.
Proof.
  split.
  - intros H. stage_of H. clear Hx. split; [exact Hvs |]. revert H.
    unfold validateBaseUrl, fatal_if.
    destruct (String.eqb_spec (baseUrl f) "") as [He | Hne]; [discriminate |].
    cbn [negb].
    destruct (strings.HasPrefix (baseUrl f) "http://");
      destruct (strings.HasPrefix (baseUrl f) "https://");
      cbn [negb andb]; try discriminate. auto.
  - intros (Hvs & Hne & H1 & H2). apply String.eqb_neq in Hne.
    unfold main, validateBaseUrl. rewrite Hvs, Hne, H1, H2. reflexivity.
Qed.

(** X18. The URL exits InvalidSseUrl and UnsupportedScheme are reported
    only in SSE mode with no listen address and a dialable URL given; the
    exit MissingAddress is never reported. *)
Theorem sse_url_exits (f : Flags) :
  (main f = Fatal InvalidSseUrl \/ main f = Fatal UnsupportedScheme ->
   sseMode f = true /\ httpMode f = false /\
   sseAddr f = "" /\ sseUrl f <> "") /\
  main f <> Fatal MissingAddress.
Proof.
  split.
  - intros [H | H]; stage_of H; destruct H as [Hon H];
      apply checkModes_Ok in Hcm; destruct Hcm as [Hoff | Hoff];
      try congruence.
    + apply (proj1 (proj1 (proj2 (getSseUrlAddr_exit_table _ _)))) in H. tauto.
    + apply (proj1 (proj1 (proj2 (proj2 (getSseUrlAddr_exit_table _ _))))) in H.
      tauto.
  - intros H. stage_of H.
Qed.

(** X19. For a spec source "file://" followed by a path, the file looked
    up is exactly that path; SpecFileNotFound is reported exactly when
    the lookup says the file does not exist, and any other lookup result,
    a failure for another reason included, lets the source pass. *)
Theorem file_source_lookup (f : Flags) (path : string) :
  specUrl f = "file://" ++ path ->
  (main f = Fatal SpecFileNotFound <-> os_Stat path = StatNotExist) /\
  (os_Stat path <> StatNotExist -> validateSpec f = Ok tt).
Proof.
  intros Hs.
  assert (Hv : validateSpec f = fatal_if (os_IsNotExist (os_Stat path)) SpecFileNotFound).
  { rewrite validateSpec_file; rewrite Hs.
    - now rewrite TrimPrefix_append.
    - apply HasPrefix_append. }
  assert (Hok : os_Stat path <> StatNotExist -> validateSpec f = Ok tt).
  { intros Hn. rewrite Hv. destruct (os_Stat path); try reflexivity. now elim Hn. }
  split; [| exact Hok]. split.
  - intros H. stage_of H. clear Hx. rewrite Hv in H.
    destruct (os_Stat path); [discriminate | reflexivity | discriminate].
  - intros Hn. unfold main. rewrite Hv, Hn. reflexivity.
Qed.

End RunProperties.

(** ** The two resolvers side by side *)

(** X20. On the same listen address the two resolvers agree on failure,
    and on the empty and the HOST:PORT forms [getHttpAddr] returns the
    listen address of [getSseUrlAddr]; on the form :PORT it returns the
    dialable URL of [getSseUrlAddr] instead. *)
Theorem resolvers_side_by_side {E : Externals} (sseUrl addr : string) :
  (addr <> "" ->
   (getHttpAddr addr = Fatal InvalidAddressFormat <->
    getSseUrlAddr sseUrl addr = Fatal InvalidAddressFormat)) /\
  (forall dialable listen,
     getSseUrlAddr "" addr = Ok (dialable, listen) ->
     getHttpAddr addr =
       Ok (if strings.HasPrefix addr ":" then dialable else listen)).
Proof.
  rewrite getHttpAddr_cases. split.
  - intros Hne. rewrite (getSseUrlAddr_addr sseUrl addr Hne).
    apply String.eqb_neq in Hne. rewrite Hne.
    destruct (strings.HasPrefix addr ":"); [split; discriminate |].
    destruct (strings.Contains addr ":"); split; try discriminate; reflexivity.
  - intros dialable listen.
    destruct (String.eqb_spec addr "") as [-> | Hne].
    + cbn. now intros [= <- <-].
    + rewrite (getSseUrlAddr_addr "" addr Hne).
      destruct (strings.HasPrefix addr ":"); [now intros [= <- <-] |].
      destruct (strings.Contains addr ":"); [now intros [= <- <-] | discriminate].
Qed.

(** * The further properties on the executable environment *)

Lemma getHttpAddr_by_shape_witness :
  getHttpAddr "0.0.0.0:9000" = Ok "0.0.0.0:9000".
Proof.
  destruct (getHttpAddr_by_shape "0.0.0.0:9000") as (_ & _ & Hhost & _).
  apply (Hhost "0.0.0.0" "9000"); [reflexivity | discriminate | reflexivity].
Defined.

Lemma getHttpAddr_outcomes_witness :
  getHttpAddr ":9000" = Ok "http://localhost:9000" /\
  "http://localhost:9000" <> "" /\
  strings.Contains "http://localhost:9000" ":" = true /\
  strings.HasPrefix "http://localhost:9000" ":" = false.
Proof.
  split; [reflexivity |].
  destruct (getHttpAddr_outcomes ":9000") as (_ & _ & Hshape).
  apply (Hshape "http://localhost:9000"). reflexivity.
Defined.

Lemma getHttpAddr_idempotent_witness :
  getHttpAddr ":9000" = Ok "http://localhost:9000" /\
  getHttpAddr "http://localhost:9000" = Ok "http://localhost:9000".
Proof.
  split; [reflexivity |].
  apply (getHttpAddr_idempotent ":9000" "http://localhost:9000"). reflexivity.
Defined.

Lemma getSseUrlAddr_listen_address_first_witness :
  "127.0.0.1:7000" <> "" /\
  getSseUrlAddr (E := sampleExternals) "" "127.0.0.1:7000"
  = getSseUrlAddr (E := sampleExternals) "ws://not a url" "127.0.0.1:7000".
Proof.
  assert (Hne : "127.0.0.1:7000" <> "") by discriminate.
  split; [exact Hne |].
  apply (getSseUrlAddr_listen_address_first sampleExternals sampleExternals
           "" "ws://not a url" "127.0.0.1:7000" Hne).
Defined.

Lemma getSseUrlAddr_fatal_exits_witness :
  getSseUrlAddr (E := sampleExternals) "ws://example.com" ""
  = Fatal UnsupportedScheme.
Proof.
  destruct (getSseUrlAddr_fatal_exits (E := sampleExternals) "ws://example.com" "")
    as (_ & _ & [_ Hscheme] & _).
  apply Hscheme. split; [reflexivity |]. split; [discriminate |].
  exists (mkURL "ws" "example.com").
  repeat split; try reflexivity; discriminate.
Defined.

Lemma getSseUrlAddr_url_plain_host_witness :
  getSseUrlAddr (E := sampleExternals) "https://example.com" ""
  = Ok ("https://example.com", "example.com:443").
Proof.
  assert (Hne : "https://example.com" <> "") by discriminate.
  destruct (getSseUrlAddr_url_plain_host (E := sampleExternals)
              "https://example.com" (mkURL "https" "example.com") Hne eq_refl)
    as [Hplain _].
  destruct (Hplain eq_refl) as (_ & Hhttps & _).
  apply Hhttps. reflexivity.
Defined.

Lemma getSseUrlAddr_url_with_port_witness :
  getSseUrlAddr (E := sampleExternals) "http://example.com:8443/events" ""
  = Ok ("http://example.com:8443/events", "example.com:8443").
Proof.
  assert (Hne : "http://example.com:8443/events" <> "") by discriminate.
  apply (getSseUrlAddr_url_with_port (E := sampleExternals)
           "http://example.com:8443/events" (mkURL "http" "example.com:8443")
           "example.com" "8443" Hne);
    try reflexivity. discriminate.
Defined.

Lemma getSseUrlAddr_url_listen_shape_witness :
  exists host port,
    "[:80" = host ++ ":" ++ port /\
    strings.Contains host ":" = false /\
    strings.Contains port ":" = false /\ port <> "".
Proof.
  assert (Hne : "http://[::1]:8080" <> "") by discriminate.
  apply (getSseUrlAddr_url_listen_shape (E := sampleExternals)
           "http://[::1]:8080" "http://[::1]:8080" "[:80" Hne).
  reflexivity.
Defined.

Lemma hostAndPort_pieces_witness :
  strings.Contains "[::1]:8080" ":" = true /\
  2 <= List.length (strings.Split "[::1]:8080" ":").
Proof.
  split; [reflexivity |].
  apply (hostAndPort_pieces "[::1]:8080"). reflexivity.
Defined.

Lemma config_modes_witness :
  main flagsStdioAddrs
  = Ok ("file:///tmp/spec.json", assemble flagsStdioAddrs "" "" "" "") /\
  SseAddr (SseCfg (assemble flagsStdioAddrs "" "" "" "")) = "" /\
  SseUrl (SseCfg (assemble flagsStdioAddrs "" "" "" "")) = "".
Proof.
  split; [reflexivity |].
  destruct (config_modes (E := sampleExternals) flagsStdioAddrs
              "file:///tmp/spec.json" (assemble flagsStdioAddrs "" "" "" "")
              eq_refl) as (_ & _ & _ & Hsse & _).
  apply Hsse. reflexivity.
Defined.

Lemma stdio_run_witness :
  sseMode flagsStdioAddrs = false /\ httpMode flagsStdioAddrs = false /\
  main flagsStdioAddrs
  = Ok ("file:///tmp/spec.json", assemble flagsStdioAddrs "" "" "" "").
Proof.
  split; [reflexivity |]. split; [reflexivity |].
  apply (stdio_run (E := sampleExternals) flagsStdioAddrs
           "file:///tmp/spec.json" (assemble flagsStdioAddrs "" "" "" "")
           eq_refl eq_refl).
  repeat split.
Defined.

Lemma http_config_address_witness :
  main flagsAllSet
  = Ok ("file:///tmp/spec.json", assemble flagsAllSet "" "" "/mcp" "127.0.0.1:7000") /\
  httpMode flagsAllSet = true /\
  getHttpAddr (httpAddr flagsAllSet) = Ok "127.0.0.1:7000".
Proof.
  split; [reflexivity |]. split; [reflexivity |].
  apply (http_config_address (E := sampleExternals) flagsAllSet
           "file:///tmp/spec.json"
           (assemble flagsAllSet "" "" "/mcp" "127.0.0.1:7000")
           eq_refl eq_refl).
Defined.

Lemma config_pass_through_witness :
  main flagsAllSet
  = Ok ("file:///tmp/spec.json", assemble flagsAllSet "" "" "/mcp" "127.0.0.1:7000") /\
  ApiCfg (assemble flagsAllSet "" "" "/mcp" "127.0.0.1:7000")
  = mkApiConfig "https://api.example.com" "/pets.*" "/admin.*" "GET,POST"
      "DELETE" "bearer" "user:pw" "header:X-Key=1" "token" "A=1,B=2".
Proof.
  split; [reflexivity |].
  apply (config_pass_through (E := sampleExternals) flagsAllSet
           "file:///tmp/spec.json"
           (assemble flagsAllSet "" "" "/mcp" "127.0.0.1:7000") eq_refl).
Defined.

(** An environment whose loader fails on every source. *)
Lemma load_failure_is_last_witness :
  main (E := {| SwaggerSpec := unit;
                url_Parse := GoUrl.Parse;
                url_ParseRequestURI := GoUrl.ParseRequestURI;
                os_Stat := fun _ => StatOk;
                swagger_LoadSwagger := fun _ => None |}) flagsAllSet
  = Fatal LoadSwaggerFailed.
Proof.
  apply load_failure_is_last.
  split; [reflexivity |]. split; [reflexivity |]. split; [reflexivity |].
  split; [exists "", ""; reflexivity |].
  split; [exists "/mcp", "127.0.0.1:7000"; reflexivity | reflexivity].
Defined.

Lemma address_format_exit_witness :
  main flagsHttpNoColon = Fatal InvalidAddressFormat.
Proof.
  apply (address_format_exit (E := sampleExternals) flagsHttpNoColon).
  split; [reflexivity |]. split; [reflexivity |]. right.
  repeat split. discriminate.
Defined.

Lemma spec_url_exit_witness :
  main (withSpec flagsBothModes "http://example.com:port") = Fatal InvalidSpecUrl.
Proof.
  apply (spec_url_exit (E := sampleExternals)). split; [now left | reflexivity].
Defined.

Lemma base_url_exit_witness :
  main (withBaseUrl flagsBothModes "api.example.com") = Fatal InvalidBaseUrl.
Proof.
  apply (base_url_exit (E := sampleExternals)).
  split; [reflexivity |]. split; [discriminate |]. split; reflexivity.
Defined.

Lemma sse_url_exits_witness :
  main (withSse (withSpec noFlags "file:///tmp/spec.json") "" "ws://example.com")
  = Fatal UnsupportedScheme /\
  sseAddr (withSse (withSpec noFlags "file:///tmp/spec.json") "" "ws://example.com")
  = "".
Proof.
  split; [reflexivity |].
  apply (sse_url_exits (E := sampleExternals)
           (withSse (withSpec noFlags "file:///tmp/spec.json") "" "ws://example.com")).
  right. reflexivity.
Defined.

Lemma file_source_lookup_witness :
  main (withSpec flagsAllSet "file://relative/spec.json") = Fatal SpecFileNotFound.
Proof.
  apply (file_source_lookup (E := sampleExternals)
           (withSpec flagsAllSet "file://relative/spec.json") "relative/spec.json");
    reflexivity.
Defined.

Lemma resolvers_side_by_side_witness :
  getSseUrlAddr (E := sampleExternals) "" ":9000"
  = Ok ("http://localhost:9000", ":9000") /\
  getHttpAddr ":9000" = Ok "http://localhost:9000".
Proof.
  split; [reflexivity |].
  destruct (resolvers_side_by_side (E := sampleExternals) "" ":9000") as [_ H].
  apply (H "http://localhost:9000" ":9000"). reflexivity.
Defined.
